(** * cpu_monitor: the monitoring engine [CPUMonitorCore] of [cpu_core.py]

    A shallow embedding of the engine and the properties its specification
    states about it.

    Conventions of the embedding.
    - Python [float]s (CPU and memory percentages, [time.time()] readings,
      the threshold) are rationals [Q]; results are compared with [==].
    - A Python [dict] keyed by PID is a [gmap Z _].
    - [ProcessInfo] is a mutable dataclass whose instances are shared between
      the cache, the list under construction and the published list.  The
      instances live in an object store ([objects]) and are referred to by
      their identity ([loc]); an attribute assignment is an update of the
      store.
    - Everything the engine asks of the operating system is an input of the
      function that asks: the answer of every [psutil] read site, and the
      reading of the clock at every [time.time()] site.
    - An exception raised by [psutil] is a constructor of [psutil.result];
      [try]/[except] is a [match] on it. *)

From Stdlib Require Import QArith Sorted Permutation.
From stdpp Require Import gmap strings list fin_maps.

Open Scope Q_scope.

(** ** Float comparisons, as booleans *)

Definition Qge_bool (a b : Q) : bool := Qle_bool b a.
Definition Qgt_bool (a b : Q) : bool := negb (Qle_bool a b).
Definition Qlt_bool (a b : Q) : bool := negb (Qle_bool b a).

(** Python's [sum]: a left fold that starts from [0]. *)
Definition sum (l : list Q) : Q := fold_left Qplus l 0.

(** Python's [len], as a float operand. *)
Definition len {A : Type} (l : list A) : Q := inject_Z (Z.of_nat (length l)).

(** [l[-n:]] for [n > 0]: the last [n] elements, all of [l] when it is shorter. *)
Definition last_n {A : Type} (n : nat) (l : list A) : list A :=
  skipn (length l - n) l.

(** [list.sort(key=..., reverse=True)]: a stable sort, largest key first.
    Elements with equal keys keep their relative order. *)
Section Sort.
Context {A : Type} (key : A -> Q).

Fixpoint insert_desc (x : A) (l : list A) : list A :=
  match l with
  | [] => [x]
  | y :: l' => if Qle_bool (key y) (key x) then x :: l
               else y :: insert_desc x l'
  end.

Definition sort_desc (l : list A) : list A := foldr insert_desc [] l.

(** [x] may be listed before [y]. *)
Definition before (x y : A) : Prop := key y <= key x.
End Sort.

(** ** The operating system, as seen through psutil *)

Module psutil.

(** Outcome of one psutil call: a value, or the exception it raised
    ([Error] stands for any other exception). *)
Inductive result (A : Type) : Type :=
| Ok (a : A)
| NoSuchProcess
| AccessDenied
| Error.
Arguments Ok {A} a.
Arguments NoSuchProcess {A}.
Arguments AccessDenied {A}.
Arguments Error {A}.

(** A [psutil.Process] handle during one call of [_get_process_info]: the
    answer at each read site of that function.  Each site is executed at
    most once per call, so the sites are independent fields. *)
Record Process : Type := {
  pid : Z;
  info_cpu_percent : option Q;      (* p.info['cpu_percent'], process_iter *)
  refresh_cpu_percent : result Q;   (* line 169 *)
  refresh_memory_percent : result Q;(* line 171 *)
  name : result string;             (* line 187 *)
  cpu_percent : result Q;           (* line 190 *)
  memory_percent : result Q;        (* line 191 *)
  username : result string;         (* line 199 *)
  cmdline : result (list string);   (* line 208 *)
  exe : result string;              (* line 209 *)
  create_time : result Q;           (* line 215 *)
  num_threads : result Z;           (* line 221 *)
  name_denied : result string       (* line 256 *)
}.

(** One system-wide sample, read by [_update_system_stats]. *)
Record SystemSample : Type := {
  sys_cpu_percent : Q;
  mem_percent : Q;
  mem_total : Z;
  mem_available : Z;
  mem_used : Z;
  cpu_freq : option Q;
  times_user : Q;
  times_system : Q;
  times_idle : Q;
  datetime_now : Q
}.

(** Outcome of [psutil.Process(pid).terminate()], and whether the call of
    [os.system] raises. *)
Record Termination : Type := {
  terminate : result unit;
  taskkill_raises : bool
}.

End psutil.

(** ** Data model *)

Module ProcessInfo.
Record t : Type := mk {
  name : string;
  pid : Z;
  cpu_percent : Q;
  memory_percent : Q;
  username : string;
  status : string;
  command : string;
  create_time : Q;
  threads : Z;
  avg_cpu_percent : Q
}.

Definition set_cpu_percent (v : Q) (i : t) : t :=
  mk (name i) (pid i) v (memory_percent i) (username i) (status i)
     (command i) (create_time i) (threads i) (avg_cpu_percent i).
Definition set_memory_percent (v : Q) (i : t) : t :=
  mk (name i) (pid i) (cpu_percent i) v (username i) (status i)
     (command i) (create_time i) (threads i) (avg_cpu_percent i).
Definition set_status (v : string) (i : t) : t :=
  mk (name i) (pid i) (cpu_percent i) (memory_percent i) (username i) v
     (command i) (create_time i) (threads i) (avg_cpu_percent i).
Definition set_avg_cpu_percent (v : Q) (i : t) : t :=
  mk (name i) (pid i) (cpu_percent i) (memory_percent i) (username i)
     (status i) (command i) (create_time i) (threads i) v.
End ProcessInfo.

(** Identity of a [ProcessInfo] instance. *)
Abbreviation loc := nat (only parsing).

(** A cache entry [{'info': ..., 'timestamp': ...}]. *)
Record CacheEntry : Type := {
  info : loc;
  timestamp : Q
}.

(** [system_data]. *)
Record SystemStats : Type := {
  sd_cpu_percent : Q;
  sd_memory_percent : Q;
  sd_cpu_freq : Q;
  sd_cpu_count : Z;
  sd_cpu_stats : option (Q * Q * Q);      (* user, system, idle; {} at start *)
  sd_memory_stats : option (Z * Z * Z)    (* total, available, used *)
}.

(** [history_data]: three parallel lists. *)
Record HistoryData : Type := {
  cpu : list Q;
  memory : list Q;
  timestamps : list Q
}.

(** The attributes of a [CPUMonitorCore] instance, with the object store. *)
Record Core : Type := mkCore {
  threshold : Q;
  running : bool;
  update_interval : Q;
  update_event : bool;
  process_data : list loc;
  system_data : SystemStats;
  history_data : HistoryData;
  history_max_points : nat;
  update_queue : list bool;
  process_cpu_history : gmap Z (list (Q * Q));
  history_window : Q;
  process_cache : gmap Z CacheEntry;
  cache_ttl : Q;
  last_cache_cleanup : Q;
  objects : gmap nat ProcessInfo.t
}.

(** Attribute assignment on the engine. *)
Definition set_threshold_field (v : Q) (s : Core) : Core :=
  mkCore v (running s) (update_interval s) (update_event s) (process_data s)
    (system_data s) (history_data s) (history_max_points s) (update_queue s)
    (process_cpu_history s) (history_window s) (process_cache s) (cache_ttl s)
    (last_cache_cleanup s) (objects s).
Definition set_running (v : bool) (s : Core) : Core :=
  mkCore (threshold s) v (update_interval s) (update_event s) (process_data s)
    (system_data s) (history_data s) (history_max_points s) (update_queue s)
    (process_cpu_history s) (history_window s) (process_cache s) (cache_ttl s)
    (last_cache_cleanup s) (objects s).
Definition set_update_interval_field (v : Q) (s : Core) : Core :=
  mkCore (threshold s) (running s) v (update_event s) (process_data s)
    (system_data s) (history_data s) (history_max_points s) (update_queue s)
    (process_cpu_history s) (history_window s) (process_cache s) (cache_ttl s)
    (last_cache_cleanup s) (objects s).
Definition set_update_event (v : bool) (s : Core) : Core :=
  mkCore (threshold s) (running s) (update_interval s) v (process_data s)
    (system_data s) (history_data s) (history_max_points s) (update_queue s)
    (process_cpu_history s) (history_window s) (process_cache s) (cache_ttl s)
    (last_cache_cleanup s) (objects s).
Definition set_process_data (v : list loc) (s : Core) : Core :=
  mkCore (threshold s) (running s) (update_interval s) (update_event s) v
    (system_data s) (history_data s) (history_max_points s) (update_queue s)
    (process_cpu_history s) (history_window s) (process_cache s) (cache_ttl s)
    (last_cache_cleanup s) (objects s).
Definition set_system_data (v : SystemStats) (s : Core) : Core :=
  mkCore (threshold s) (running s) (update_interval s) (update_event s)
    (process_data s) v (history_data s) (history_max_points s) (update_queue s)
    (process_cpu_history s) (history_window s) (process_cache s) (cache_ttl s)
    (last_cache_cleanup s) (objects s).
Definition set_history_data (v : HistoryData) (s : Core) : Core :=
  mkCore (threshold s) (running s) (update_interval s) (update_event s)
    (process_data s) (system_data s) v (history_max_points s) (update_queue s)
    (process_cpu_history s) (history_window s) (process_cache s) (cache_ttl s)
    (last_cache_cleanup s) (objects s).
Definition set_update_queue (v : list bool) (s : Core) : Core :=
  mkCore (threshold s) (running s) (update_interval s) (update_event s)
    (process_data s) (system_data s) (history_data s) (history_max_points s) v
    (process_cpu_history s) (history_window s) (process_cache s) (cache_ttl s)
    (last_cache_cleanup s) (objects s).
Definition set_process_cpu_history (v : gmap Z (list (Q * Q))) (s : Core) : Core :=
  mkCore (threshold s) (running s) (update_interval s) (update_event s)
    (process_data s) (system_data s) (history_data s) (history_max_points s)
    (update_queue s) v (history_window s) (process_cache s) (cache_ttl s)
    (last_cache_cleanup s) (objects s).
Definition set_process_cache (v : gmap Z CacheEntry) (s : Core) : Core :=
  mkCore (threshold s) (running s) (update_interval s) (update_event s)
    (process_data s) (system_data s) (history_data s) (history_max_points s)
    (update_queue s) (process_cpu_history s) (history_window s) v (cache_ttl s)
    (last_cache_cleanup s) (objects s).
Definition set_last_cache_cleanup (v : Q) (s : Core) : Core :=
  mkCore (threshold s) (running s) (update_interval s) (update_event s)
    (process_data s) (system_data s) (history_data s) (history_max_points s)
    (update_queue s) (process_cpu_history s) (history_window s)
    (process_cache s) (cache_ttl s) v (objects s).
Definition set_objects (v : gmap nat ProcessInfo.t) (s : Core) : Core :=
  mkCore (threshold s) (running s) (update_interval s) (update_event s)
    (process_data s) (system_data s) (history_data s) (history_max_points s)
    (update_queue s) (process_cpu_history s) (history_window s)
    (process_cache s) (cache_ttl s) (last_cache_cleanup s) v.

(** [obj.attr = v] for the instance [l]. *)
Definition assign (f : ProcessInfo.t -> ProcessInfo.t) (l : loc) (s : Core) : Core :=
  set_objects (alter f l (objects s)) s.

(** [ProcessInfo(...)]: a new instance, with an identity not in use. *)
Definition new_object (i : ProcessInfo.t) (s : Core) : loc * Core :=
  let l := fresh (dom (objects s)) in
  (l, set_objects (<[l := i]> (objects s)) s).

(** [__init__] (lines 27-58), after the access check and the warm-up. *)
Definition __init__ (threshold update_interval : Q) (cpu_count : Z) (now : Q) : Core :=
  {| threshold := threshold;
     running := true;
     update_interval := update_interval;
     update_event := false;
     process_data := [];
     system_data := {| sd_cpu_percent := 0; sd_memory_percent := 0;
                       sd_cpu_freq := 0; sd_cpu_count := cpu_count;
                       sd_cpu_stats := None; sd_memory_stats := None |};
     history_data := {| cpu := []; memory := []; timestamps := [] |};
     history_max_points := 100;
     update_queue := [];
     process_cpu_history := ∅;
     history_window := 180;
     process_cache := ∅;
     cache_ttl := 5;
     last_cache_cleanup := now;
     objects := ∅ |}.

(** ** CPU history tracker (lines 115-155) *)

(** The test [t >= cutoff_time] of lines 125 and 150. *)
Definition recent (cutoff_time : Q) (tc : Q * Q) : bool := Qge_bool tc.1 cutoff_time.

Definition _cleanup_process_history (current_time : Q) (s : Core) : Core :=
  let cutoff_time := current_time - history_window s in
  set_process_cpu_history
    (omap (fun history =>
             let history := List.filter (recent cutoff_time) history in
             match history with
             | [] => None              (* del self.process_cpu_history[pid] *)
             | _ => Some history
             end)
          (process_cpu_history s)) s.

Definition _update_process_cpu_history
    (pid : Z) (cpu_percent : Q) (current_time : Q) (s : Core) : Core :=
  let history := default [] (process_cpu_history s !! pid) in
  set_process_cpu_history
    (<[pid := history ++ [(current_time, cpu_percent)]]> (process_cpu_history s)) s.

Definition _calculate_average_cpu (pid : Z) (current_time : Q) (s : Core) : Q :=
  match process_cpu_history s !! pid with
  | None => 0
  | Some history =>
      let cutoff_time := current_time - history_window s in
      let recent_history := List.filter (recent cutoff_time) history in
      match recent_history with
      | [] => 0
      | _ => sum (map snd recent_history) / len recent_history
      end
  end.

(** ** Process info cache and per-process read (lines 157-296) *)

(** The three readings of [time.time()] during one call of
    [_get_process_info]: on entry (line 162), when the sample is recorded
    (line 133) and when the average is computed (line 146). *)
Record Clock : Type := {
  current_time : Q;
  record_time : Q;
  average_time : Q
}.

(** Sequencing of psutil reads inside one [try] block: the first exception
    leaves the block. *)
#[global] Instance result_bind : MBind psutil.result := fun A B k r =>
  match r with
  | psutil.Ok a => k a
  | psutil.NoSuchProcess => psutil.NoSuchProcess
  | psutil.AccessDenied => psutil.AccessDenied
  | psutil.Error => psutil.Error
  end.

(** [try: v = read() except: v = fallback]. *)
Definition or_else {A : Type} (r : psutil.result A) (fallback : A) : A :=
  match r with
  | psutil.Ok a => a
  | _ => fallback
  end.

(** The cache-hit block, lines 166-179.  [inl] is the [return] of line 176;
    [inr] is an exception caught at line 177, after which the entry is
    deleted and control falls through to the full read. *)
Definition refresh_cached
    (process : psutil.Process) (clock : Clock) (cache_entry : CacheEntry)
    (s : Core) : (loc * Core) + Core :=
  let pid := psutil.pid process in
  match psutil.refresh_cpu_percent process with
  | psutil.Ok cpu_percent =>
      let s := assign (ProcessInfo.set_cpu_percent cpu_percent) (info cache_entry) s in
      match psutil.refresh_memory_percent process with
      | psutil.Ok memory_percent =>
          let s := assign (ProcessInfo.set_memory_percent memory_percent)
                          (info cache_entry) s in
          let s := assign (ProcessInfo.set_status
                             (if Qgt_bool cpu_percent (threshold s)
                              then "HIGH" else "Normal"))
                          (info cache_entry) s in
          let s := _update_process_cpu_history pid cpu_percent (record_time clock) s in
          let s := assign (ProcessInfo.set_avg_cpu_percent
                             (_calculate_average_cpu pid (average_time clock) s))
                          (info cache_entry) s in
          inl (info cache_entry, s)
      | _ => inr (set_process_cache (delete pid (process_cache s)) s)
      end
  | _ => inr (set_process_cache (delete pid (process_cache s)) s)
  end.

(** The body of the inner [try], lines 186-245. *)
Definition read_fields
    (process : psutil.Process) (clock : Clock) (s : Core)
    : psutil.result (loc * Core) :=
  let pid := psutil.pid process in
  name ← psutil.name process;
  cpu_percent ← psutil.cpu_percent process;
  memory_percent ← psutil.memory_percent process;
  let s := _update_process_cpu_history pid cpu_percent (record_time clock) s in
  let avg_cpu_percent := _calculate_average_cpu pid (average_time clock) s in
  let username := or_else (psutil.username process) "N/A"%string in
  let status := if Qgt_bool cpu_percent (threshold s) then "HIGH"%string
                else "Normal"%string in
  let command :=
    match psutil.cmdline process with
    | psutil.Ok [] => or_else (psutil.exe process) name
    | psutil.Ok cmdline => String.concat " " cmdline
    | _ => name
    end in
  let create_time := or_else (psutil.create_time process) 0 in
  let threads := or_else (psutil.num_threads process) 0%Z in
  let '(info, s) :=
    new_object (ProcessInfo.mk name pid cpu_percent memory_percent username
                  status command create_time threads avg_cpu_percent) s in
  let s := set_process_cache
             (<[pid := {| info := info; timestamp := current_time clock |}]>
                (process_cache s)) s in
  psutil.Ok (info, s).

(** The full read, lines 182-281: the body above and its handlers. *)
Definition read_process
    (process : psutil.Process) (clock : Clock) (s : Core) : option loc * Core :=
  let pid := psutil.pid process in
  match read_fields process clock s with
  | psutil.Ok (info, s) => (Some info, s)
  | psutil.NoSuchProcess =>
      (None, set_process_cache (delete pid (process_cache s)) s)
  | psutil.AccessDenied =>
      match psutil.name_denied process with
      | psutil.Ok name =>
          let '(info, s) :=
            new_object (ProcessInfo.mk name pid 0 0 "N/A" "N/A" "Access Denied"
                          0 0%Z 0) s in
          let s := set_process_cache
                     (<[pid := {| info := info; timestamp := current_time clock |}]>
                        (process_cache s)) s in
          (Some info, s)
      | _ => (None, s)
      end
  | psutil.Error => (None, s)
  end.

Definition _get_process_info
    (process : psutil.Process) (clock : Clock) (s : Core) : option loc * Core :=
  let pid := psutil.pid process in
  let cached :=
    match process_cache s !! pid with
    | Some cache_entry =>
        if Qlt_bool (current_time clock - timestamp cache_entry) (cache_ttl s)
        then refresh_cached process clock cache_entry s
        else inr s
    | None => inr s
    end in
  match cached with
  | inl (info, s) => (Some info, s)
  | inr s => read_process process clock s
  end.

Definition _cleanup_process_cache (current_time : Q) (s : Core) : Core :=
  if Qgt_bool (current_time - last_cache_cleanup s) 30 then
    let expired (entry : Z * CacheEntry) : bool :=
      Qgt_bool (current_time - timestamp entry.2) (cache_ttl s) in
    let s := set_process_cache
               (filter (fun entry => expired entry = false) (process_cache s)) s in
    set_last_cache_cleanup current_time s
  else s.

(** ** System statistics and the history ring (lines 298-336) *)

(** [sample] is [None] when one of the psutil calls raised: the function
    logs the error and changes nothing, since all reads come before the
    first assignment. *)
Definition _update_system_stats
    (sample : option psutil.SystemSample) (s : Core) : Core :=
  match sample with
  | None => s
  | Some r =>
      let s := set_system_data
        {| sd_cpu_percent := psutil.sys_cpu_percent r;
           sd_memory_percent := psutil.mem_percent r;
           sd_cpu_freq := default 0 (psutil.cpu_freq r);
           sd_cpu_count := sd_cpu_count (system_data s);
           sd_cpu_stats := Some (psutil.times_user r, psutil.times_system r,
                                 psutil.times_idle r);
           sd_memory_stats := Some (psutil.mem_total r, psutil.mem_available r,
                                    psutil.mem_used r) |} s in
      (* Update history *)
      let h := history_data s in
      let h := {| cpu := cpu h ++ [psutil.sys_cpu_percent r];
                  memory := memory h ++ [psutil.mem_percent r];
                  timestamps := timestamps h ++ [psutil.datetime_now r] |} in
      (* Keep only last N points *)
      let h := if (history_max_points s <? length (cpu h))%nat
               then {| cpu := last_n (history_max_points s) (cpu h);
                       memory := last_n (history_max_points s) (memory h);
                       timestamps := last_n (history_max_points s) (timestamps h) |}
               else h in
      set_history_data h s
  end.

(** ** Monitor loop (lines 338-416) *)

(** One process handed to [_get_process_info], with the clock readings of
    that call. *)
Record Scan : Type := {
  process : psutil.Process;
  clock : Clock
}.

(** What one iteration of the loop obtains from its environment. *)
Record Tick : Type := {
  tick_time : Q;                             (* line 343 *)
  stats : option psutil.SystemSample;        (* line 346 *)
  cache_cleanup_time : Q;                    (* line 285 *)
  history_cleanup_time : Q;                  (* line 117 *)
  process_iter : option (list Scan);         (* line 366; None: it raised *)
  pids : option (list (option Scan))         (* lines 384-386; None: raised *)
}.

(** [for proc in ...: info = self._get_process_info(proc); if info: append]. *)
Fixpoint collect (scans : list Scan) (processes : list loc) (s : Core)
    : list loc * Core :=
  match scans with
  | [] => (processes, s)
  | proc :: rest =>
      let '(info, s) := _get_process_info (process proc) (clock proc) s in
      collect rest (match info with
                    | Some info => processes ++ [info]
                    | None => processes
                    end) s
  end.

(** The sort key [x.avg_cpu_percent] of line 396, read through the store. *)
Definition avg_key (s : Core) (l : loc) : Q :=
  match objects s !! l with
  | Some x => ProcessInfo.avg_cpu_percent x
  | None => 0
  end.

(** The full update, lines 356-408. *)
Definition full_update (tick : Tick) (s : Core) : Core :=
  let s := set_update_event false s in
  let '(processes, s) :=
    match process_iter tick with
    | Some process_iter =>
        let process_iter :=
          sort_desc (fun p => default 0 (psutil.info_cpu_percent (process p)))
                    process_iter in
        let process_iter := take 100 process_iter in
        collect process_iter [] s
    | None => ([], s)
    end in
  let '(processes, s) :=
    match processes with
    | [] =>
        match pids tick with
        | Some pids => collect (omap id (take 100 pids)) [] s
        | None => ([], s)
        end
    | _ => (processes, s)
    end in
  let processes := sort_desc (avg_key s) processes in
  let s := set_process_data processes s in
  set_update_queue (update_queue s ++ [true]) s.

(** One iteration of [while self.running], on the engine and the local
    variable [last_full_update]. *)
Definition _monitor_loop_body (tick : Tick) (st : Core * Q) : Core * Q :=
  let '(s, last_full_update) := st in
  let current_time := tick_time tick in
  let s := _update_system_stats (stats tick) s in
  let s := _cleanup_process_cache (cache_cleanup_time tick) s in
  let s := _cleanup_process_history (history_cleanup_time tick) s in
  let full_update_needed :=
    update_event s || Qge_bool (current_time - last_full_update) 5 in
  if full_update_needed
  then (full_update tick s, current_time)
  else (s, last_full_update).

(** The loop, over the environment of its successive iterations. *)
Fixpoint _monitor_loop (ticks : list Tick) (st : Core * Q) : Core * Q :=
  match ticks with
  | [] => st
  | tick :: ticks =>
      if running st.1 then _monitor_loop ticks (_monitor_loop_body tick st)
      else st
  end.

(** ** Control API (lines 428-502) *)

(** The returned list is a new list of the same instances. *)
Definition get_process_list (s : Core) : list loc := process_data s.

(** What a caller reads in a list of instances, in the state [s]. *)
Definition read_list (s : Core) (l : list loc) : list ProcessInfo.t :=
  omap (fun x => objects s !! x) l.

Definition request_update (s : Core) : Core := set_update_event true s.

Definition get_system_stats (s : Core) : SystemStats := system_data s.

Definition get_history_data (s : Core) : HistoryData :=
  {| cpu := cpu (history_data s);
     memory := memory (history_data s);
     timestamps := timestamps (history_data s) |}.

(** [win32] is [sys.platform == 'win32']. *)
Definition kill_process
    (pid : Z) (os : psutil.Termination) (win32 : bool) (s : Core) : bool * Core :=
  match psutil.terminate os with
  | psutil.Ok _ =>
      (true, set_process_cache (delete pid (process_cache s)) s)
  | psutil.NoSuchProcess => (false, s)
  | psutil.AccessDenied =>
      if win32 then
        if psutil.taskkill_raises os then (false, s)
        else (true, set_process_cache (delete pid (process_cache s)) s)
      else (false, s)
  | psutil.Error => (false, s)
  end.

Definition set_threshold (threshold : Q) (s : Core) : Core :=
  set_threshold_field threshold s.

Definition set_update_interval (interval : Q) (s : Core) : Core :=
  set_update_interval_field
    (if Qgt_bool interval (1 # 2) then interval else 1 # 2) s.

Definition shutdown (s : Core) : Core := set_running false s.

(** The status shown by the table of [cpu_monitor_ui.py] (line 538, under
    the comment that the status is judged by the average CPU usage). *)
Module cpu_monitor_ui.
Definition row_status (proc : ProcessInfo.t) (threshold : Q) : string :=
  if Qgt_bool (ProcessInfo.avg_cpu_percent proc) threshold then "HIGH" else "Normal".
End cpu_monitor_ui.

(** ** Scheduling of the monitor thread and of the callers

    The monitor thread runs loop iterations; callers on other threads issue
    control operations between them. *)
Inductive Event : Type :=
| Iteration (tick : Tick)
| RequestUpdate
| KillProcess (pid : Z) (os : psutil.Termination) (win32 : bool)
| SetThreshold (threshold : Q)
| SetUpdateInterval (interval : Q)
| Shutdown.

Definition apply_event (e : Event) (st : Core * Q) : Core * Q :=
  match e with
  | Iteration tick => _monitor_loop [tick] st
  | RequestUpdate => (request_update st.1, st.2)
  | KillProcess pid os win32 => ((kill_process pid os win32 st.1).2, st.2)
  | SetThreshold v => (set_threshold v st.1, st.2)
  | SetUpdateInterval v => (set_update_interval v st.1, st.2)
  | Shutdown => (shutdown st.1, st.2)
  end.

Definition run (events : list Event) (st : Core * Q) : Core * Q :=
  foldl (fun st e => apply_event e st) st events.

(** The engine inside a full update, when the first [n] processes of the
    scan have been read (the loop of lines 373-376 after [n] rounds). *)
Definition during_full_update (n : nat) (tick : Tick) (s : Core) : Core :=
  let s := set_update_event false s in
  match process_iter tick with
  | Some process_iter =>
      let process_iter :=
        sort_desc (fun p => default 0 (psutil.info_cpu_percent (process p)))
                  process_iter in
      (collect (take n (take 100 process_iter)) [] s).2
  | None => s
  end.

(** ** The specification's wording, for comparison *)

Module Spec.

(** [RollingAverage]: the samples of the window [now - 180, now], their
    arithmetic mean, [0] when there is none. *)
Definition in_window (now : Q) (tc : Q * Q) : bool :=
  Qle_bool (now - 180) tc.1 && Qle_bool tc.1 now.

Definition RollingAverage (history : list (Q * Q)) (now : Q) : Q :=
  let window := List.filter (in_window now) history in
  match window with
  | [] => 0
  | _ => sum (map snd window) / len window
  end.

(** The status values, and the string the engine writes for each. *)
Inductive Status : Type := Normal | High | Unknown.

Definition label (x : Status) : string :=
  match x with
  | Normal => "Normal"
  | High => "HIGH"
  | Unknown => "N/A"
  end.

(** Sorted by rolling-average CPU, largest first. *)
Definition sorted_by_average (l : list ProcessInfo.t) : Prop :=
  StronglySorted
    (fun x y => ProcessInfo.avg_cpu_percent y <= ProcessInfo.avg_cpu_percent x) l.

End Spec.

(** * Vocabulary of the statements and scenarios *)

(** The engine with a given per-PID sample history, otherwise as built. *)
Definition with_samples (pid : Z) (samples : list (Q * Q)) : Core :=
  set_process_cpu_history {[ pid := samples ]} (__init__ 70 2 4%Z 0).

(** The history of [pid] replaced by [samples]. *)
Definition replace_samples (pid : Z) (samples : list (Q * Q)) (s : Core) : Core :=
  set_process_cpu_history (<[pid := samples]> (process_cpu_history s)) s.

(** The three lists have one length. *)
Definition aligned (h : HistoryData) : Prop :=
  length (cpu h) = length (memory h) /\ length (memory h) = length (timestamps h).

(** Reading processes and sweeping the cache and the sample histories assign
    only [process_cpu_history], [process_cache], [last_cache_cleanup] and
    the instances; the other attributes are this tuple. *)
Definition control (s : Core) :=
  (threshold s, running s, update_interval s, update_event s, process_data s,
   system_data s, history_data s, history_max_points s, update_queue s,
   history_window s, cache_ttl s).

(** The ring invariant: three lists of one length, at most the capacity,
    which is 100. *)
Definition ring_ok (s : Core) : Prop :=
  aligned (history_data s) /\
  (length (cpu (history_data s)) <= 100)%nat /\
  history_max_points s = 100%nat.

(** The samples that the iterations [ticks] obtained. *)
Definition points (ticks : list Tick) : list psutil.SystemSample :=
  omap stats ticks.

(** An iteration that obtains the sample [n]. *)
Definition sample_tick (n : nat) : Tick :=
  let x := inject_Z (Z.of_nat n) in
  {| tick_time := 2 * x;
     stats := Some {| psutil.sys_cpu_percent := x; psutil.mem_percent := 50;
                      psutil.mem_total := 16; psutil.mem_available := 8;
                      psutil.mem_used := 8; psutil.cpu_freq := None;
                      psutil.times_user := 1; psutil.times_system := 1;
                      psutil.times_idle := 98; psutil.datetime_now := 2 * x |};
     cache_cleanup_time := 2 * x;
     history_cleanup_time := 2 * x;
     process_iter := Some [];
     pids := Some [] |}.

(** Lines 346-350 of an iteration: statistics and sweeps. *)
Definition sweep (tick : Tick) (s : Core) : Core :=
  _cleanup_process_history (history_cleanup_time tick)
    (_cleanup_process_cache (cache_cleanup_time tick)
       (_update_system_stats (stats tick) s)).

(** The identity [l] denotes an instance. *)
Definition allocated (s : Core) (l : loc) : Prop := is_Some (objects s !! l).

(** Every cache entry and every published reference denotes an instance. *)
Definition store_ok (s : Core) : Prop :=
  (forall (pid : Z) (e : CacheEntry),
     process_cache s !! pid = Some e -> allocated s (info e)) /\
  Forall (allocated s) (process_data s).

(** Instances are never discarded. *)
Definition extends (s s' : Core) : Prop :=
  forall l : loc, allocated s l -> allocated s' l.

(** A process that answers every read, with CPU percent [c]. *)
Definition live_process (pid : Z) (c : Q) : psutil.Process :=
  {| psutil.pid := pid;
     psutil.info_cpu_percent := Some c;
     psutil.refresh_cpu_percent := psutil.Ok c;
     psutil.refresh_memory_percent := psutil.Ok 1;
     psutil.name := psutil.Ok "worker"%string;
     psutil.cpu_percent := psutil.Ok c;
     psutil.memory_percent := psutil.Ok 1;
     psutil.username := psutil.Ok "user"%string;
     psutil.cmdline := psutil.Ok ["worker"%string];
     psutil.exe := psutil.Ok "/bin/worker"%string;
     psutil.create_time := psutil.Ok 1;
     psutil.num_threads := psutil.Ok 1%Z;
     psutil.name_denied := psutil.Ok "worker"%string |}.

(** All clock readings of a call at the instant [t]. *)
Definition at_time (t : Q) : Clock :=
  {| current_time := t; record_time := t; average_time := t |}.

(** An iteration at the instant [t] that finds the processes [procs]. *)
Definition scan_tick (t : Q) (procs : list psutil.Process) : Tick :=
  {| tick_time := t;
     stats := None;
     cache_cleanup_time := t;
     history_cleanup_time := t;
     process_iter := Some (map (fun p => {| process := p; clock := at_time t |}) procs);
     pids := Some [] |}.

(** Two processes are published; an update is requested; the next full
    update starts by refreshing the cached instance of process 2. *)
Definition first_scan : Tick := scan_tick 10 [live_process 1 50; live_process 2 10].
Definition second_scan : Tick := scan_tick 12 [live_process 1 50; live_process 2 150].
Definition published : Core * Q :=
  run [Iteration first_scan; RequestUpdate] (__init__ 70 2 4%Z 0, 0).
Definition refreshing : Core :=
  during_full_update 1 second_scan (sweep second_scan published.1).

(** The instance after a cache hit with the readings [cpu] and [mem]. *)
Definition refreshed
    (cpu mem threshold avg : Q) (i : ProcessInfo.t) : ProcessInfo.t :=
  ProcessInfo.mk (ProcessInfo.name i) (ProcessInfo.pid i) cpu mem
    (ProcessInfo.username i)
    (if Qgt_bool cpu threshold then "HIGH" else "Normal")
    (ProcessInfo.command i) (ProcessInfo.create_time i) (ProcessInfo.threads i)
    avg.

(** The average computed on a read of [cpu] for [pid]. *)
Definition average_after (pid : Z) (cpu : Q) (c : Clock) (s : Core) : Q :=
  _calculate_average_cpu pid (average_time c)
    (_update_process_cpu_history pid cpu (record_time c) s).

(** Process 7 is read in full at t = 0, and queried again later. *)
Definition cached_at_0 : Core :=
  (_get_process_info (live_process 7 50) (at_time 0) (__init__ 70 2 4%Z 0)).2.

(** Process 7 is read in full at t = 0 and process 8 at t = 38. *)
Definition cached_at_0_and_38 : Core :=
  (_get_process_info (live_process 8 50) (at_time 38) cached_at_0).2.

(** A process that has exited: every read raises [NoSuchProcess]. *)
Definition exited_process (pid : Z) : psutil.Process :=
  {| psutil.pid := pid;
     psutil.info_cpu_percent := None;
     psutil.refresh_cpu_percent := psutil.NoSuchProcess;
     psutil.refresh_memory_percent := psutil.NoSuchProcess;
     psutil.name := psutil.NoSuchProcess;
     psutil.cpu_percent := psutil.NoSuchProcess;
     psutil.memory_percent := psutil.NoSuchProcess;
     psutil.username := psutil.NoSuchProcess;
     psutil.cmdline := psutil.NoSuchProcess;
     psutil.exe := psutil.NoSuchProcess;
     psutil.create_time := psutil.NoSuchProcess;
     psutil.num_threads := psutil.NoSuchProcess;
     psutil.name_denied := psutil.NoSuchProcess |}.

(** The process is gone; termination is denied. *)
Definition gone : psutil.Termination :=
  {| psutil.terminate := psutil.NoSuchProcess; psutil.taskkill_raises := false |}.
Definition denied : psutil.Termination :=
  {| psutil.terminate := psutil.AccessDenied; psutil.taskkill_raises := false |}.

(** The PIDs a caller reads in the list returned by [get_process_list]. *)
Definition listed_pids (s : Core) : list Z :=
  map ProcessInfo.pid (read_list s (get_process_list s)).

(** The OS denies one of the reads the full read depends on (name, CPU
    percent, memory percent), the reads before it having succeeded. *)
Definition mandatory_denied (p : psutil.Process) : Prop :=
  psutil.name p = psutil.AccessDenied \/
  (exists name : string, psutil.name p = psutil.Ok name /\
     (psutil.cpu_percent p = psutil.AccessDenied \/
      (exists cpu : Q, psutil.cpu_percent p = psutil.Ok cpu /\
         psutil.memory_percent p = psutil.AccessDenied))).

(** What the handler of line 252 builds. *)
Definition access_denied_info (name : string) (pid : Z) : ProcessInfo.t :=
  ProcessInfo.mk name pid 0 0 "N/A" "N/A" "Access Denied" 0 0%Z 0.

(** A process whose name can be read and nothing else. *)
Definition guarded_process (pid : Z) : psutil.Process :=
  {| psutil.pid := pid;
     psutil.info_cpu_percent := None;
     psutil.refresh_cpu_percent := psutil.AccessDenied;
     psutil.refresh_memory_percent := psutil.AccessDenied;
     psutil.name := psutil.Ok "System"%string;
     psutil.cpu_percent := psutil.AccessDenied;
     psutil.memory_percent := psutil.AccessDenied;
     psutil.username := psutil.AccessDenied;
     psutil.cmdline := psutil.AccessDenied;
     psutil.exe := psutil.AccessDenied;
     psutil.create_time := psutil.AccessDenied;
     psutil.num_threads := psutil.AccessDenied;
     psutil.name_denied := psutil.Ok "System"%string |}.

(** A process of which nothing can be read, not even the name. *)
Definition restricted_process (pid : Z) : psutil.Process :=
  {| psutil.pid := pid;
     psutil.info_cpu_percent := None;
     psutil.refresh_cpu_percent := psutil.AccessDenied;
     psutil.refresh_memory_percent := psutil.AccessDenied;
     psutil.name := psutil.AccessDenied;
     psutil.cpu_percent := psutil.AccessDenied;
     psutil.memory_percent := psutil.AccessDenied;
     psutil.username := psutil.AccessDenied;
     psutil.cmdline := psutil.AccessDenied;
     psutil.exe := psutil.AccessDenied;
     psutil.create_time := psutil.AccessDenied;
     psutil.num_threads := psutil.AccessDenied;
     psutil.name_denied := psutil.AccessDenied |}.

(** Process 7 runs at 100 percent when first read and at 50 percent two
    seconds later, on a requested update (cache hit), or ten seconds later,
    on a timed update (full re-read). *)
Definition busy_then_calm (later : Q) (requests : list Event) : Core :=
  (run ([Iteration (scan_tick 10 [live_process 7 100])] ++ requests ++
        [Iteration (scan_tick later [live_process 7 50])])
       (__init__ 70 2 4%Z 0, 0)).1.

(** The published list is in order, by the averages its instances hold in
    the state [s]. *)
Definition published_sorted (s : Core) : Prop :=
  StronglySorted (before (avg_key s)) (process_data s).

(** What a caller reads in the one published entry. *)
Definition published_entry (s : Core) : option (Z * Q * Q * string * string) :=
  match read_list s (get_process_list s) with
  | [i] => Some (ProcessInfo.pid i,
                 Qred (ProcessInfo.cpu_percent i),
                 Qred (ProcessInfo.avg_cpu_percent i),
                 ProcessInfo.status i,
                 cpu_monitor_ui.row_status i (threshold s))
  | _ => None
  end.

(** ** Vocabulary of the further properties *)

(** The samples kept by a sweep or a query with the given cutoff. *)
Definition kept_samples (cutoff : Q) (history : list (Q * Q)) : list (Q * Q) :=
  List.filter (recent cutoff) history.

(** The status the engine derives from an instance's own CPU percent. *)
Definition status_of_cpu (threshold : Q) (i : ProcessInfo.t) : string :=
  if Qgt_bool (ProcessInfo.cpu_percent i) threshold then "HIGH" else "Normal".

(** The candidates of the primary scan, lines 366-370. *)
Definition ranked (process_iter : list Scan) : list Scan :=
  take 100
    (sort_desc (fun p => default 0 (psutil.info_cpu_percent (process p)))
       process_iter).

(** The loop of lines 373-376 over the primary scan. *)
Definition primary (tick : Tick) (s : Core) : list loc * Core :=
  match process_iter tick with
  | Some process_iter => collect (ranked process_iter) [] (set_update_event false s)
  | None => ([], set_update_event false s)
  end.

(** Lines 361-393: the primary scan, then the fallback scan over
    [psutil.pids()] when the primary scan produced no entry. *)
Definition gathered (tick : Tick) (s : Core) : list loc * Core :=
  let '(processes, s) := primary tick s in
  match processes with
  | [] =>
      match pids tick with
      | Some pids => collect (omap id (take 100 pids)) [] s
      | None => ([], s)
      end
  | _ => (processes, s)
  end.

(** The processes that the two loops of an iteration can hand to
    [_get_process_info]. *)
Definition scanned_primary (tick : Tick) : list Scan :=
  match process_iter tick with
  | Some process_iter => ranked process_iter
  | None => []
  end.
Definition scanned_fallback (tick : Tick) : list Scan :=
  match pids tick with
  | Some pids => omap id (take 100 pids)
  | None => []
  end.

(** How often [pid] occurs among scanned processes. *)
Definition reads_of (pid : Z) (scans : list Scan) : nat :=
  length (List.filter (fun x => Z.eqb (psutil.pid (process x)) pid) scans).

(** The samples recorded for [pid]. *)
Definition samples_of (s : Core) (pid : Z) : list (Q * Q) :=
  default [] (process_cpu_history s !! pid).

(** The same iteration with another answer of [psutil.pids()]. *)
Definition with_pids (alt : option (list (option Scan))) (tick : Tick) : Tick :=
  {| tick_time := tick_time tick;
     stats := stats tick;
     cache_cleanup_time := cache_cleanup_time tick;
     history_cleanup_time := history_cleanup_time tick;
     process_iter := process_iter tick;
     pids := alt |}.

(** The PID of the instance [l]. *)
Definition pid_of (s : Core) (l : loc) : option Z :=
  ProcessInfo.pid <$> objects s !! l.

(** Every cache entry holds an instance of its own PID. *)
Definition cache_pids_ok (s : Core) : Prop :=
  forall (pid : Z) (e : CacheEntry),
    process_cache s !! pid = Some e -> pid_of s (info e) = Some pid.

(** The PIDs the two enumerations of an iteration yield. *)
Definition iter_pids (tick : Tick) : list Z :=
  map (fun x => psutil.pid (process x)) (default [] (process_iter tick)).
Definition fallback_pids (tick : Tick) : list Z :=
  map (fun x => psutil.pid (process x)) (omap id (default [] (pids tick))).

(** Instances keep their PID. *)
Definition pids_stable (s s' : Core) : Prop :=
  forall (l : loc) (x : Z), pid_of s l = Some x -> pid_of s' l = Some x.

(** [system_data] after a successful sampling of [r]. *)
Definition stats_of (r : psutil.SystemSample) (cpu_count : Z) : SystemStats :=
  {| sd_cpu_percent := psutil.sys_cpu_percent r;
     sd_memory_percent := psutil.mem_percent r;
     sd_cpu_freq := default 0 (psutil.cpu_freq r);
     sd_cpu_count := cpu_count;
     sd_cpu_stats := Some (psutil.times_user r, psutil.times_system r,
                           psutil.times_idle r);
     sd_memory_stats := Some (psutil.mem_total r, psutil.mem_available r,
                              psutil.mem_used r) |}.

(** The constants of the engine. *)
Definition constants (s : Core) : Q * Q * nat * Z :=
  (history_window s, cache_ttl s, history_max_points s,
   sd_cpu_count (system_data s)).

(** * Properties *)

(** ** Rolling average *)

Lemma recent_window_agree (now : Q) (tc : Q * Q) :
  tc.1 <= now -> recent (now - 180) tc = Spec.in_window now tc.
Proof.
  intros Hle. unfold recent, Spec.in_window, Qge_bool.
  apply Qle_bool_iff in Hle. rewrite Hle. by rewrite andb_true_r.
Qed.

Lemma filter_recent_window (now : Q) (history : list (Q * Q)) :
  Forall (fun tc => tc.1 <= now) history ->
  List.filter (recent (now - 180)) history = List.filter (Spec.in_window now) history.
Proof.
  induction 1 as [|tc l Htc _ IH]; simpl; [done|].
  rewrite (recent_window_agree _ _ Htc), IH. done.
Qed.

Lemma filter_drop_stale (cutoff : Q) (h1 h2 : list (Q * Q)) (tc : Q * Q) :
  tc.1 < cutoff ->
  List.filter (recent cutoff) (h1 ++ tc :: h2) = List.filter (recent cutoff) (h1 ++ h2).
Proof.
  intros Hlt. rewrite !List.filter_app. simpl.
  replace (recent cutoff tc) with false; [done|].
  symmetry. unfold recent, Qge_bool. apply not_true_is_false.
  rewrite Qle_bool_iff. by apply Qlt_not_le.
Qed.

(** C2 (as amended).  The query keeps the samples of the PID whose timestamp
    is at least [now - 180] and returns the arithmetic mean of their CPU
    values, [0] when none is kept (or the PID is unknown); when no sample is
    dated after [now] this is the mean over the window [now - 180, now].
    For the samples (0,10), (60,20), (120,30) and now = 150 the result is 20,
    and it is still 20 with a further sample older than 150 - 180 = -30,
    such as one at t = -40. *)
Theorem C2_rolling_average (s : Core) (pid : Z) (now : Q) :
  history_window s = 180 ->
  let history := default [] (process_cpu_history s !! pid) in
  let kept := List.filter (fun tc => Qle_bool (now - 180) tc.1) history in
  (kept = [] -> _calculate_average_cpu pid now s = 0) /\
  (kept <> [] ->
     _calculate_average_cpu pid now s = sum (map snd kept) / len kept) /\
  (Forall (fun tc => tc.1 <= now) history ->
     _calculate_average_cpu pid now s = Spec.RollingAverage history now) /\
  _calculate_average_cpu 5 150 (with_samples 5 [(0, 10); (60, 20); (120, 30)]) == 20 /\
  _calculate_average_cpu 5 150
    (with_samples 5 [(-40, 99); (0, 10); (60, 20); (120, 30)]) == 20.
Proof.
  intros Hw history kept.
  assert (Hcode : _calculate_average_cpu pid now s =
                  match kept with [] => 0 | _ => sum (map snd kept) / len kept end).
  { unfold _calculate_average_cpu, kept, history. rewrite Hw.
    destruct (process_cpu_history s !! pid) as [h|]; simpl; done. }
  split; [|split; [|split; [|split]]].
  - intros E. by rewrite Hcode, E.
  - intros E. rewrite Hcode. by destruct kept.
  - intros Hpast. rewrite Hcode. unfold Spec.RollingAverage, kept.
    change (fun tc : Q * Q => Qle_bool (now - 180) tc.1) with (recent (now - 180)).
    by rewrite (filter_recent_window _ _ Hpast).
  - vm_compute. reflexivity.
  - vm_compute. reflexivity.
Qed.

Lemma C2_rolling_average_witness :
  let s := with_samples 5 [(0, 10); (60, 20); (120, 30)] in
  history_window s = 180 /\
  _calculate_average_cpu 5 150 s = Spec.RollingAverage [(0, 10); (60, 20); (120, 30)] 150.
Proof.
  intros s. split; [reflexivity|].
  destruct (C2_rolling_average s 5 150 eq_refl) as (_ & _ & H & _).
  apply H. vm_compute. repeat constructor; discriminate.
Defined.

(** C2, as stated, fails twice.  With now = 150 the window starts at -30, so
    a sample at t = -10 is inside it and changes the result; and a sample
    dated after [now] lies outside [now - 180, now] but is averaged in. *)
Lemma C2_counterexample :
  let samples := [(0, 10); (60, 20); (120, 30)] in
  (_calculate_average_cpu 5 150 (with_samples 5 samples) == 20 /\
   _calculate_average_cpu 5 150 (with_samples 5 ((-10, 100) :: samples)) == 40 /\
   Spec.RollingAverage ((-10, 100) :: samples) 150 == 40) /\
  (Spec.RollingAverage (samples ++ [(200, 100)]) 150 == 20 /\
   ~ _calculate_average_cpu 5 150 (with_samples 5 (samples ++ [(200, 100)]))
     == Spec.RollingAverage (samples ++ [(200, 100)]) 150).
Proof.
  split; [split; [|split]|split]; [vm_compute; reflexivity ..|].
  vm_compute. discriminate.
Qed.

(** C9 (as amended).  The rolling average is computed only from the samples
    whose timestamp is at least [now - 180]: a sample older than that does
    not contribute, the result is the same with the sample removed.  (No
    upper bound is applied: see the counterexample.) *)
Theorem C9_stale_sample_ignored
    (s : Core) (pid : Z) (now : Q) (h1 h2 : list (Q * Q)) (t c : Q) :
  process_cpu_history s !! pid = Some (h1 ++ (t, c) :: h2) ->
  t < now - history_window s ->
  _calculate_average_cpu pid now s =
  _calculate_average_cpu pid now (replace_samples pid (h1 ++ h2) s).
Proof.
  intros Hh Hstale. unfold _calculate_average_cpu, replace_samples. simpl.
  rewrite Hh, lookup_insert_eq.
  by rewrite (filter_drop_stale _ h1 h2 (t, c) Hstale).
Qed.

Lemma C9_stale_sample_ignored_witness :
  let s := with_samples 5 [(0, 10); (60, 20); (120, 30)] in
  _calculate_average_cpu 5 200 s
  = _calculate_average_cpu 5 200 (replace_samples 5 [(60, 20); (120, 30)] s).
Proof.
  intros s. apply (C9_stale_sample_ignored s 5 200 [] [(60, 20); (120, 30)] 0 10).
  - reflexivity.
  - reflexivity.
Defined.

(** C9, as stated, fails: a sample dated after the query time contributes. *)
Lemma C9_counterexample :
  let s := with_samples 5 [(0, 10); (200, 100)] in
  150 < 200 /\
  _calculate_average_cpu 5 150 s == 55 /\
  _calculate_average_cpu 5 150 (replace_samples 5 [(0, 10)] s) == 10 /\
  ~ _calculate_average_cpu 5 150 s
    == _calculate_average_cpu 5 150 (replace_samples 5 [(0, 10)] s).
Proof.
  split; [|split; [|split]]; [reflexivity | vm_compute; reflexivity ..|].
  vm_compute. discriminate.
Qed.

(** ** History ring *)

Lemma length_last_n {A : Type} (n : nat) (l : list A) :
  length (last_n n l) = (length l `min` n)%nat.
Proof. unfold last_n. rewrite length_drop. lia. Qed.

Lemma last_n_all {A : Type} (n : nat) (l : list A) :
  (length l <= n)%nat -> last_n n l = l.
Proof.
  intros H. unfold last_n. by replace (length l - n)%nat with 0%nat by lia.
Qed.

Lemma last_n_snoc {A : Type} (n : nat) (l : list A) (x : A) :
  last_n n (last_n n l ++ [x]) = last_n n (l ++ [x]).
Proof.
  unfold last_n. rewrite !length_app, length_drop. simpl.
  destruct (decide (length l <= n)%nat) as [Hle|Hgt].
  - replace (length l - n)%nat with 0%nat by lia. rewrite drop_0. f_equal. lia.
  - destruct n as [|n].
    + rewrite !drop_ge; [done | rewrite ?length_app, ?length_drop; simpl; lia ..].
    + replace (length l - (length l - S n) + 1 - S n)%nat with 1%nat by lia.
      rewrite !drop_app_le by (rewrite ?length_drop; lia).
      rewrite drop_drop. do 2 f_equal. lia.
Qed.

Lemma history_after_update (r : psutil.SystemSample) (s : Core) :
  aligned (history_data s) ->
  let h := history_data s in
  let n := history_max_points s in
  history_data (_update_system_stats (Some r) s) =
  {| cpu := last_n n (cpu h ++ [psutil.sys_cpu_percent r]);
     memory := last_n n (memory h ++ [psutil.mem_percent r]);
     timestamps := last_n n (timestamps h ++ [psutil.datetime_now r]) |}.
Proof.
  intros [H1 H2] h n. unfold _update_system_stats. simpl.
  fold h. fold n.
  destruct (Nat.ltb_spec n (length (cpu h ++ [psutil.sys_cpu_percent r]))) as [Hlt|Hge];
    simpl; [done|].
  rewrite length_app in Hge. simpl in Hge.
  rewrite !last_n_all; [done | rewrite length_app; simpl; unfold h in *; lia ..].
Qed.

Lemma aligned_update (sample : option psutil.SystemSample) (s : Core) :
  aligned (history_data s) -> aligned (history_data (_update_system_stats sample s)).
Proof.
  intros Ha. destruct sample as [r|]; [|done].
  rewrite history_after_update by done.
  destruct Ha as [H1 H2]. unfold aligned. simpl.
  rewrite !length_last_n, !length_app. simpl. lia.
Qed.

Lemma bounded_update (sample : option psutil.SystemSample) (s : Core) :
  aligned (history_data s) ->
  (length (cpu (history_data s)) <= history_max_points s)%nat ->
  (length (cpu (history_data (_update_system_stats sample s)))
   <= history_max_points s)%nat.
Proof.
  intros Ha Hb. destruct sample as [r|]; [|done].
  rewrite history_after_update by done. simpl.
  rewrite length_last_n. lia.
Qed.

(** ** Frame: what the per-process machinery leaves alone *)

Lemma control_get_process_info (p : psutil.Process) (c : Clock) (s : Core) :
  control (_get_process_info p c s).2 = control s.
Proof.
  unfold _get_process_info, refresh_cached, read_process, read_fields,
    mbind, result_bind, new_object.
  repeat case_match; simplify_eq; simpl in *; try done.
Qed.

Lemma control_collect (scans : list Scan) (acc : list loc) (s : Core) :
  control (collect scans acc s).2 = control s.
Proof.
  revert acc s. induction scans as [|x scans IH]; intros acc s; simpl; [done|].
  destruct (_get_process_info (process x) (clock x) s) as [r s'] eqn:E.
  rewrite IH. change s' with (r, s').2. rewrite <- E.
  apply control_get_process_info.
Qed.

Lemma control_cleanup_process_cache (t : Q) (s : Core) :
  control (_cleanup_process_cache t s) = control s.
Proof. unfold _cleanup_process_cache. by case_match. Qed.

Lemma control_cleanup_process_history (t : Q) (s : Core) :
  control (_cleanup_process_history t s) = control s.
Proof. done. Qed.

(** The full update assigns the event, the published list and the queue. *)
Lemma full_update_frame (tick : Tick) (s : Core) :
  let s' := full_update tick s in
  threshold s' = threshold s /\ running s' = running s /\
  history_data s' = history_data s /\
  history_max_points s' = history_max_points s /\
  update_event s' = false /\
  update_queue s' = update_queue s ++ [true].
Proof.
  unfold full_update.
  set (s0 := set_update_event false s).
  destruct (match process_iter tick with
            | Some it => _
            | None => _
            end) as [processes s1] eqn:E1.
  assert (H1 : control s1 = control s0).
  { destruct (process_iter tick); simplify_eq; [|done].
    change s1 with (processes, s1).2. rewrite <- E1. apply control_collect. }
  destruct (match processes with
            | [] => _
            | _ => _
            end) as [processes' s2] eqn:E2.
  assert (H2 : control s2 = control s1).
  { destruct processes; simplify_eq; [|done].
    destruct (pids tick); simplify_eq; [|done].
    change s2 with (processes', s2).2. rewrite <- E2. apply control_collect. }
  rewrite H1 in H2. unfold control in H2. simpl in *. simplify_eq.
  repeat split; congruence.
Qed.

Lemma last_n_app {A : Type} (n : nat) (l r : list A) :
  last_n n (last_n n l ++ r) = last_n n (l ++ r).
Proof.
  unfold last_n. rewrite !length_app, length_drop.
  destruct (decide (length l <= n)%nat) as [Hle|Hgt].
  - replace (length l - n)%nat with 0%nat by lia. rewrite drop_0. f_equal. lia.
  - destruct (decide (length r <= n)%nat) as [Hr|Hr].
    + rewrite !drop_app_le by (rewrite ?length_drop; lia).
      rewrite drop_drop. do 2 f_equal. lia.
    + rewrite !drop_app_ge by (rewrite ?length_drop; lia).
      rewrite length_drop. f_equal. lia.
Qed.

Lemma ring_ok_init (threshold interval : Q) (cpu_count : Z) (now : Q) :
  ring_ok (__init__ threshold interval cpu_count now).
Proof. unfold ring_ok, aligned. simpl. repeat split; lia. Qed.

Lemma history_max_points_update (sample : option psutil.SystemSample) (s : Core) :
  history_max_points (_update_system_stats sample s) = history_max_points s.
Proof. by destruct sample. Qed.

Lemma running_update (sample : option psutil.SystemSample) (s : Core) :
  running (_update_system_stats sample s) = running s.
Proof. by destruct sample. Qed.

Lemma ring_ok_update (sample : option psutil.SystemSample) (s : Core) :
  ring_ok s -> ring_ok (_update_system_stats sample s).
Proof.
  intros (Ha & Hb & Hn). repeat split.
  - by apply aligned_update.
  - by apply aligned_update.
  - pose proof (bounded_update sample s Ha) as H. rewrite Hn in H. apply H, Hb.
  - by rewrite history_max_points_update.
Qed.

(** An iteration touches the history through [_update_system_stats] only. *)
Lemma history_monitor_loop_body (tick : Tick) (st : Core * Q) :
  let s' := (_monitor_loop_body tick st).1 in
  let s1 := _update_system_stats (stats tick) st.1 in
  history_data s' = history_data s1 /\
  history_max_points s' = history_max_points s1 /\
  running s' = running s1.
Proof.
  destruct st as [s l]. unfold _monitor_loop_body. simpl.
  set (s1 := _update_system_stats (stats tick) s).
  set (s2 := _cleanup_process_cache _ s1).
  set (s3 := _cleanup_process_history _ s2).
  assert (H : control s3 = control s1).
  { unfold s3. rewrite control_cleanup_process_history.
    apply control_cleanup_process_cache. }
  unfold control in H.
  destruct (update_event _ || Qge_bool (tick_time tick - l) 5); simpl.
  - destruct (full_update_frame tick s3) as (_ & Hr & Hh & Hm & _).
    simpl in *. simplify_eq. repeat split; congruence.
  - simpl in *. simplify_eq. repeat split; congruence.
Qed.

Lemma ring_ok_apply_event (e : Event) (st : Core * Q) :
  ring_ok st.1 -> ring_ok (apply_event e st).1.
Proof.
  intros Hok. destruct e as [tick| |pid os win32|v|v|]; simpl; try done.
  - destruct (running st.1); [|done].
    destruct (history_monitor_loop_body tick st) as (Hh & Hm & _).
    pose proof (ring_ok_update (stats tick) _ Hok) as Hok'.
    unfold ring_ok in *. by rewrite Hh, Hm.
  - unfold kill_process. by repeat case_match.
Qed.

Lemma ring_ok_run (events : list Event) (st : Core * Q) :
  ring_ok st.1 -> ring_ok (run events st).1.
Proof.
  revert st. induction events as [|e events IH]; intros st Hok; simpl; [done|].
  by apply IH, ring_ok_apply_event.
Qed.

Lemma history_monitor_loop (ticks : list Tick) (st : Core * Q) :
  ring_ok st.1 -> running st.1 = true ->
  let h := history_data st.1 in
  let h' := history_data (_monitor_loop ticks st).1 in
  cpu h' = last_n 100 (cpu h ++ map psutil.sys_cpu_percent (points ticks)) /\
  memory h' = last_n 100 (memory h ++ map psutil.mem_percent (points ticks)) /\
  timestamps h' =
    last_n 100 (timestamps h ++ map psutil.datetime_now (points ticks)).
Proof.
  revert st. induction ticks as [|tick ticks IH]; intros st Hok Hrun; simpl.
  - destruct Hok as ([H1 H2] & Hb & _). rewrite !app_nil_r.
    rewrite !last_n_all; [done | lia ..].
  - rewrite Hrun.
    destruct (history_monitor_loop_body tick st) as (Hh & Hm & Hr).
    pose proof (ring_ok_update (stats tick) _ Hok) as Hok'.
    rewrite running_update in Hr.
    destruct (IH (_monitor_loop_body tick st)) as (Hc & Hmem & Hts).
    { unfold ring_ok in *. by rewrite Hh, Hm. }
    { congruence. }
    rewrite Hc, Hmem, Hts, Hh. unfold points.
    destruct (stats tick) as [r|]; [|done].
    destruct Hok as (Ha & _ & Hn).
    rewrite history_after_update by done. simpl. rewrite Hn.
    rewrite !last_n_app, <- !app_assoc. done.
Qed.

(** C5.  In every state the engine reaches, under any schedule of loop
    iterations and control operations, the history holds at most 100 points;
    eviction is FIFO: after the iterations [ticks] the history is the last
    100 of the points they obtained, oldest first, so that after 150 points
    exactly the 100 most recent remain (the first 50 are gone). *)
Theorem C5_history_ring (threshold interval : Q) (cpu_count : Z) (now : Q) :
  let init := (__init__ threshold interval cpu_count now, 0) in
  (forall events : list Event,
     let h := history_data (run events init).1 in
     (length (cpu h) <= 100)%nat /\ (length (memory h) <= 100)%nat /\
     (length (timestamps h) <= 100)%nat) /\
  (forall ticks : list Tick,
     let h := history_data (_monitor_loop ticks init).1 in
     cpu h = last_n 100 (map psutil.sys_cpu_percent (points ticks)) /\
     memory h = last_n 100 (map psutil.mem_percent (points ticks)) /\
     timestamps h = last_n 100 (map psutil.datetime_now (points ticks))) /\
  (forall ticks : list Tick,
     length (points ticks) = 150%nat ->
     let h := history_data (_monitor_loop ticks init).1 in
     length (cpu h) = 100%nat /\
     cpu h = drop 50 (map psutil.sys_cpu_percent (points ticks)) /\
     memory h = drop 50 (map psutil.mem_percent (points ticks)) /\
     timestamps h = drop 50 (map psutil.datetime_now (points ticks))).
Proof.
  intros init.
  assert (Hfifo : forall ticks : list Tick,
     let h := history_data (_monitor_loop ticks init).1 in
     cpu h = last_n 100 (map psutil.sys_cpu_percent (points ticks)) /\
     memory h = last_n 100 (map psutil.mem_percent (points ticks)) /\
     timestamps h = last_n 100 (map psutil.datetime_now (points ticks))).
  { intros ticks. apply (history_monitor_loop ticks init); [|done].
    apply ring_ok_init. }
  split; [|split].
  - intros events h.
    destruct (ring_ok_run events init (ring_ok_init _ _ _ _)) as ([H1 H2] & Hb & _).
    subst h. lia.
  - exact Hfifo.
  - intros ticks Hlen h. destruct (Hfifo ticks) as (Hc & Hm & Ht).
    subst h. rewrite Hc, Hm, Ht. unfold last_n.
    rewrite !length_drop, !length_map, Hlen. done.
Qed.

Lemma C5_history_ring_witness :
  let ticks := map sample_tick (seq 0 150) in
  let h := history_data (_monitor_loop ticks (__init__ 70 2 4%Z 0, 0)).1 in
  length (points ticks) = 150%nat /\
  cpu h = drop 50 (map psutil.sys_cpu_percent (points ticks)).
Proof.
  intros ticks h. split; [vm_compute; reflexivity|].
  destruct (C5_history_ring 70 2 4%Z 0) as (_ & _ & H).
  destruct (H ticks) as (_ & Hc & _); [vm_compute; reflexivity|].
  exact Hc.
Defined.

(** C10.  In every state the engine reaches, under any schedule of loop
    iterations and control operations, the history returned by
    [get_history_data] has as many CPU values as memory values as
    timestamps. *)
Theorem C10_history_lists_aligned
    (threshold interval : Q) (cpu_count : Z) (now : Q) (events : list Event) :
  let s := (run events (__init__ threshold interval cpu_count now, 0)).1 in
  let h := get_history_data s in
  length (cpu h) = length (memory h) /\
  length (memory h) = length (timestamps h).
Proof.
  intros s h.
  destruct (ring_ok_run events (__init__ threshold interval cpu_count now, 0)
              (ring_ok_init _ _ _ _)) as (Ha & _).
  exact Ha.
Qed.

(** ** Iterations with and without a full update *)

Lemma sweep_frame (tick : Tick) (s : Core) :
  update_event (sweep tick s) = update_event s /\
  update_queue (sweep tick s) = update_queue s /\
  process_data (sweep tick s) = process_data s /\
  threshold (sweep tick s) = threshold s.
Proof.
  unfold sweep.
  pose proof (control_cleanup_process_cache (cache_cleanup_time tick)
                (_update_system_stats (stats tick) s)) as H.
  unfold control in H. simpl. simplify_eq.
  destruct (stats tick); simpl in *; repeat split; congruence.
Qed.

Lemma monitor_loop_body_full (tick : Tick) (s : Core) (last_full_update : Q) :
  update_event s || Qge_bool (tick_time tick - last_full_update) 5 = true ->
  _monitor_loop_body tick (s, last_full_update)
  = (full_update tick (sweep tick s), tick_time tick).
Proof.
  intros H. unfold _monitor_loop_body. fold (sweep tick s).
  destruct (sweep_frame tick s) as (-> & _). by rewrite H.
Qed.

Lemma monitor_loop_body_idle (tick : Tick) (s : Core) (last_full_update : Q) :
  update_event s = false ->
  tick_time tick - last_full_update < 5 ->
  _monitor_loop_body tick (s, last_full_update) = (sweep tick s, last_full_update).
Proof.
  intros He Ht. unfold _monitor_loop_body. fold (sweep tick s).
  destruct (sweep_frame tick s) as (-> & _). rewrite He. simpl.
  unfold Qge_bool. destruct (Qle_bool 5 _) eqn:E; [|done].
  apply Qle_bool_iff in E. by apply Qlt_not_le in Ht.
Qed.

Lemma request_update_iter (n : nat) (s : Core) :
  (1 <= n)%nat -> Nat.iter n request_update s = request_update s.
Proof.
  induction n as [|n IH]; [lia|]. intros _. simpl.
  destruct n as [|n]; [done|]. by rewrite IH by lia.
Qed.

(** ** Order of the published list *)

Section SortDesc.
Context {A : Type} (key : A -> Q).

Lemma insert_desc_Permutation (x : A) (l : list A) :
  insert_desc key x l ≡ₚ x :: l.
Proof.
  induction l as [|y l IH]; simpl; [done|].
  destruct (Qle_bool (key y) (key x)); [done|].
  rewrite IH. apply Permutation_swap.
Qed.

Lemma sort_desc_Permutation (l : list A) : sort_desc key l ≡ₚ l.
Proof.
  induction l as [|x l IH]; simpl; [done|].
  by rewrite insert_desc_Permutation, IH.
Qed.

Lemma insert_desc_sorted (x : A) (l : list A) :
  StronglySorted (before key) l ->
  StronglySorted (before key) (insert_desc key x l).
Proof.
  induction 1 as [|y l Hl IH Hy]; simpl.
  - repeat constructor.
  - destruct (Qle_bool (key y) (key x)) eqn:E.
    + apply Qle_bool_iff in E. constructor; [by constructor|].
      constructor; [done|].
      eapply Forall_impl; [exact Hy|]. intros z Hz. unfold before in *.
      by apply Qle_trans with (key y).
    + constructor; [done|].
      rewrite insert_desc_Permutation. constructor; [|done].
      unfold before. apply Qlt_le_weak, Qnot_le_lt. intros Hle.
      apply Qle_bool_iff in Hle. congruence.
Qed.

Lemma sort_desc_sorted (l : list A) :
  StronglySorted (before key) (sort_desc key l).
Proof.
  induction l as [|x l IH]; simpl; [constructor|].
  by apply insert_desc_sorted.
Qed.
End SortDesc.

Lemma read_list_sorted (s : Core) (l : list loc) :
  StronglySorted (before (avg_key s)) l ->
  Spec.sorted_by_average (read_list s l).
Proof.
  unfold Spec.sorted_by_average, read_list.
  induction 1 as [|a l Hl IH Ha]; simpl; [constructor|].
  destruct (objects s !! a) as [i|] eqn:Ei; [|done].
  constructor; [done|].
  apply Forall_forall. intros j Hj.
  apply list_elem_of_omap in Hj as (b & Hb & Ej).
  rewrite Forall_forall in Ha. specialize (Ha b Hb).
  unfold before, avg_key in Ha. by rewrite Ei, Ej in Ha.
Qed.

Lemma process_data_full_update (tick : Tick) (s : Core) :
  exists (s1 : Core) (processes : list loc),
    process_data (full_update tick s) = sort_desc (avg_key s1) processes /\
    objects (full_update tick s) = objects s1.
Proof.
  unfold full_update.
  destruct (match process_iter tick with
            | Some it => _
            | None => _
            end) as [processes s1].
  destruct (match processes with
            | [] => _
            | _ => _
            end) as [processes' s2].
  by exists s2, processes'.
Qed.

(** ** The object store *)

Lemma read_process_shape (p : psutil.Process) (c : Clock) (s : Core) :
  let r := read_process p c s in
  (exists (l : loc) (i : ProcessInfo.t),
     r.1 = Some l /\
     objects r.2 = <[l := i]> (objects s) /\
     process_cache r.2 =
       <[psutil.pid p := {| info := l; timestamp := current_time c |}]>
         (process_cache s)) \/
  (r.1 = None /\ objects r.2 = objects s /\
   (process_cache r.2 = process_cache s \/
    process_cache r.2 = delete (psutil.pid p) (process_cache s))).
Proof.
  unfold read_process, read_fields, mbind, result_bind, new_object.
  destruct (psutil.name p) as [name| | |];
    [destruct (psutil.cpu_percent p) as [cpu| | |];
     [destruct (psutil.memory_percent p) as [mem| | |]|..]|..];
    simpl; try destruct (psutil.name_denied p); simpl; eauto 10.
Qed.

Lemma refresh_cached_shape
    (p : psutil.Process) (c : Clock) (e : CacheEntry) (s : Core) :
  match refresh_cached p c e s with
  | inl (l, s') =>
      l = info e /\ process_cache s' = process_cache s /\
      (forall l' : loc, allocated s' l' <-> allocated s l')
  | inr s' =>
      process_cache s' = delete (psutil.pid p) (process_cache s) /\
      (forall l' : loc, allocated s' l' <-> allocated s l')
  end.
Proof.
  unfold refresh_cached, assign, allocated.
  destruct (psutil.refresh_cpu_percent p);
    [destruct (psutil.refresh_memory_percent p)|..]; simpl;
    (split; [|split]); try done; try intros l';
    by rewrite ?lookup_alter_is_Some.
Qed.

Lemma store_ok_alt (s s' : Core) (ls : list loc) :
  extends s s' -> Forall (allocated s) ls -> Forall (allocated s') ls.
Proof. intros He H. eapply Forall_impl; [exact H | exact He]. Qed.

Lemma get_process_info_store (p : psutil.Process) (c : Clock) (s : Core) :
  store_ok s ->
  let r := _get_process_info p c s in
  store_ok r.2 /\ extends s r.2 /\
  (forall l : loc, r.1 = Some l -> allocated r.2 l).
Proof.
  intros [Hc Hd] r.
  assert (Hp : process_data r.2 = process_data s).
  { pose proof (control_get_process_info p c s) as H. unfold control in H.
    by simplify_eq. }
  assert (Hfull : forall s0 : Core,
            (forall l, allocated s0 l <-> allocated s l) ->
            (forall pid e, process_cache s0 !! pid = Some e -> allocated s (info e)) ->
            let r0 := read_process p c s0 in
            (forall pid e, process_cache r0.2 !! pid = Some e ->
                           allocated r0.2 (info e)) /\
            extends s r0.2 /\
            (forall l, r0.1 = Some l -> allocated r0.2 l)).
  { intros s0 Hs0 Hc0 r0.
    destruct (read_process_shape p c s0) as [(l & i & Hl & Ho & Hca)|(Hl & Ho & Hca)];
      fold r0 in Hl, Ho, Hca; unfold extends, allocated in *.
    - rewrite Ho, Hca. repeat split.
      + intros pid e. rewrite lookup_insert_Some, lookup_insert_is_Some'.
        intros [[_ <-]|[_ He]]; simpl; [by left|].
        right. apply Hs0. eauto.
      + intros l' Hl'. rewrite lookup_insert_is_Some'. right. by apply Hs0.
      + intros l' ?. simplify_eq. rewrite lookup_insert_is_Some'. by left.
    - rewrite Ho, Hl. repeat split; [|intros; by apply Hs0|done].
      intros pid e He. apply Hs0. apply (Hc0 pid e).
      destruct Hca as [Hca|Hca]; rewrite Hca in He; [done|].
      by apply lookup_delete_Some in He as [_ He]. }
  assert (Hgoal : (forall pid e, process_cache r.2 !! pid = Some e ->
                                 allocated r.2 (info e)) /\
                  extends s r.2 /\
                  (forall l, r.1 = Some l -> allocated r.2 l)).
  { unfold r, _get_process_info.
    destruct (process_cache s !! psutil.pid p) as [e|] eqn:He;
      [destruct (Qlt_bool _ _)|]; try (by apply Hfull).
    pose proof (refresh_cached_shape p c e s) as Hs.
    destruct (refresh_cached p c e s) as [[l s']|s'].
    - destruct Hs as (-> & Hca & Ha). simpl. repeat split.
      + intros pid e'. rewrite Hca. intros He'. apply Ha. eauto.
      + intros l' Hl'. by apply Ha.
      + intros l' ?. simplify_eq. apply Ha. eauto.
    - destruct Hs as (Hca & Ha). apply Hfull; [done|].
      intros pid e'. rewrite Hca, lookup_delete_Some. intros [_ He']. eauto. }
  destruct Hgoal as (H1 & H2 & H3).
  split; [split|split]; try done.
  rewrite Hp. by apply (store_ok_alt s).
Qed.

Lemma collect_store (scans : list Scan) (acc : list loc) (s : Core) :
  store_ok s -> Forall (allocated s) acc ->
  let r := collect scans acc s in
  store_ok r.2 /\ extends s r.2 /\ Forall (allocated r.2) r.1.
Proof.
  revert acc s. induction scans as [|x scans IH]; intros acc s Hok Hacc; simpl.
  - split; [done|]. split; [by intros l Hl | done].
  - destruct (get_process_info_store (process x) (clock x) s Hok)
      as (Hok' & Hext & Hr).
    destruct (_get_process_info (process x) (clock x) s) as [r s'].
    simpl in *.
    destruct (IH (match r with Some i => acc ++ [i] | None => acc end) s')
      as (H1 & H2 & H3); [done| |].
    + pose proof (store_ok_alt s s' acc Hext Hacc) as Hacc'.
      destruct r as [i|]; [|done].
      apply Forall_app. split; [done|]. constructor; [by apply Hr|done].
    + split; [done|]. split; [|done]. intros l Hl. by apply H2, Hext.
Qed.

Lemma setters_store (s s' : Core) :
  objects s' = objects s -> process_cache s' = process_cache s ->
  process_data s' = process_data s ->
  store_ok s -> store_ok s'.
Proof.
  unfold store_ok, allocated. intros -> -> ->. done.
Qed.

Lemma full_update_store (tick : Tick) (s : Core) :
  store_ok s -> store_ok (full_update tick s).
Proof.
  intros Hok. unfold full_update.
  set (s0 := set_update_event false s).
  assert (Hok0 : store_ok s0) by done.
  destruct (match process_iter tick with
            | Some it => _
            | None => _
            end) as [processes s1] eqn:E1.
  assert (H1 : store_ok s1 /\ Forall (allocated s1) processes).
  { destruct (process_iter tick) as [it|]; simplify_eq; [|done].
    match type of E1 with collect ?l _ _ = _ =>
      destruct (collect_store l [] s0 Hok0) as (Ha & _ & Hb); [done|] end.
    rewrite E1 in Ha, Hb. done. }
  destruct H1 as [Hok1 Hp1].
  destruct (match processes with
            | [] => _
            | _ => _
            end) as [processes' s2] eqn:E2.
  assert (H2 : store_ok s2 /\ Forall (allocated s2) processes').
  { destruct processes; simplify_eq; [|done].
    destruct (pids tick) as [ps|]; simplify_eq; [|done].
    match type of E2 with collect ?l _ _ = _ =>
      destruct (collect_store l [] s1 Hok1) as (Ha & _ & Hb); [done|] end.
    rewrite E2 in Ha, Hb. done. }
  destruct H2 as [[Hc2 _] Hp2].
  unfold store_ok, allocated in *. simpl. split; [exact Hc2|].
  by rewrite sort_desc_Permutation.
Qed.

Lemma sweep_store (tick : Tick) (s : Core) :
  store_ok s -> store_ok (sweep tick s).
Proof.
  intros [Hc Hd]. unfold sweep, _cleanup_process_history.
  set (s1 := _update_system_stats (stats tick) s).
  assert (H1 : store_ok s1).
  { unfold s1. destruct (stats tick); [|done]. done. }
  unfold _cleanup_process_cache.
  destruct (Qgt_bool _ 30); [|done].
  destruct H1 as [Hc1 Hd1]. split; [|done].
  intros pid e. simpl. rewrite map_lookup_filter_Some. intros [He _].
  by apply (Hc1 pid e).
Qed.

Lemma apply_event_store (e : Event) (st : Core * Q) :
  store_ok st.1 -> store_ok (apply_event e st).1.
Proof.
  intros Hok. destruct e as [tick| |pid os win32|v|v|]; simpl; try done.
  - destruct (running st.1); [|done]. destruct st as [s l].
    unfold _monitor_loop_body. fold (sweep tick s).
    pose proof (sweep_store tick s Hok) as Hs.
    destruct (_ || _); simpl; [by apply full_update_store | done].
  - unfold kill_process.
    assert (Hdel : store_ok (set_process_cache
                               (delete pid (process_cache st.1)) st.1)).
    { destruct Hok as [Hc Hd]. split; [|done]. intros pid' e. simpl.
      rewrite lookup_delete_Some. intros [_ He]. by apply (Hc pid' e). }
    by repeat case_match.
Qed.

Lemma run_store (events : list Event) (st : Core * Q) :
  store_ok st.1 -> store_ok (run events st).1.
Proof.
  revert st. induction events as [|e events IH]; intros st Hok; simpl; [done|].
  by apply IH, apply_event_store.
Qed.

Lemma read_list_length (s : Core) (l : list loc) :
  Forall (allocated s) l -> length (read_list s l) = length l.
Proof.
  unfold read_list. induction 1 as [|x l [i Hi] _ IH]; simpl; [done|].
  rewrite Hi. simpl. by f_equal.
Qed.

Lemma store_ok_init (threshold interval : Q) (cpu_count : Z) (now : Q) :
  store_ok (__init__ threshold interval cpu_count now).
Proof.
  split; [|constructor]. intros pid e He. simpl in He.
  by rewrite lookup_empty in He.
Qed.

Lemma collect_app (l1 l2 : list Scan) (acc : list loc) (s : Core) :
  collect (l1 ++ l2) acc s = collect l2 (collect l1 acc s).1 (collect l1 acc s).2.
Proof.
  revert acc s. induction l1 as [|x l1 IH]; intros acc s; simpl; [done|].
  destruct (_get_process_info (process x) (clock x) s) as [r s']. apply IH.
Qed.

(** The states named by [during_full_update] are those the loop of lines
    373-376 passes through: it goes on from there with the other processes. *)
Lemma collect_resume (n : nat) (scans : list Scan) (s : Core) :
  collect scans [] s
  = collect (drop n scans) (collect (take n scans) [] s).1
            (collect (take n scans) [] s).2.
Proof. by rewrite <- collect_app, take_drop. Qed.

(** A list returned by [get_process_list] while the next full update is under
    way.  The list published by the first scan is sorted (averages 50, 10).
    During the second scan the cache hit for process 2 writes the new average
    80 into the instance that the published list still holds, and a caller of
    [get_process_list] at that moment receives the averages 50, 80. *)
Lemma refreshing_reads_unsorted :
  map ProcessInfo.avg_cpu_percent
      (read_list published.1 (get_process_list published.1)) = [50; 10] /\
  get_process_list refreshing = get_process_list published.1 /\
  map (fun i => Qred (ProcessInfo.avg_cpu_percent i))
      (read_list refreshing (get_process_list refreshing)) = [50; 80] /\
  ~ Spec.sorted_by_average (read_list refreshing (get_process_list refreshing)).
Proof.
  split; [vm_compute; reflexivity|].
  split; [vm_compute; reflexivity|].
  split; [vm_compute; reflexivity|].
  unfold Spec.sorted_by_average. intros H.
  assert (E : map ProcessInfo.avg_cpu_percent
                (read_list refreshing (get_process_list refreshing))
              = [50; 160 # 2]) by (vm_compute; reflexivity).
  destruct (read_list refreshing (get_process_list refreshing))
    as [|a [|b l]]; [discriminate ..|].
  simpl in E. injection E as Ea Eb _.
  apply StronglySorted_inv in H as [_ H].
  apply Forall_inv in H. rewrite Ea, Eb in H.
  vm_compute in H. by apply H.
Qed.

Lemma published_sorted_frame (s s' : Core) :
  objects s' = objects s -> process_data s' = process_data s ->
  published_sorted s -> published_sorted s'.
Proof.
  unfold published_sorted. intros Ho ->.
  replace (avg_key s') with (avg_key s); [done|].
  unfold avg_key. by rewrite Ho.
Qed.

Lemma full_update_sorted (tick : Tick) (s : Core) :
  published_sorted (full_update tick s).
Proof.
  unfold published_sorted.
  destruct (process_data_full_update tick s) as (s1 & processes & Hp & Ho).
  rewrite Hp.
  replace (avg_key (full_update tick s)) with (avg_key s1).
  - apply sort_desc_sorted.
  - unfold avg_key. by rewrite Ho.
Qed.

Lemma sweep_objects (tick : Tick) (s : Core) :
  objects (sweep tick s) = objects s.
Proof.
  unfold sweep, _cleanup_process_history, _cleanup_process_cache. simpl.
  destruct (Qgt_bool _ 30); simpl; by destruct (stats tick).
Qed.

(** Between iterations nothing assigns an instance or the published list. *)
Lemma published_sorted_apply_event (e : Event) (st : Core * Q) :
  published_sorted st.1 -> published_sorted (apply_event e st).1.
Proof.
  intros Hok. destruct e as [tick| |pid os win32|v|v|]; simpl; try done.
  - destruct (running st.1); [|done]. destruct st as [s l].
    unfold _monitor_loop_body. fold (sweep tick s).
    destruct (_ || _); cbn [fst]; [apply full_update_sorted|].
    apply (published_sorted_frame s); [apply sweep_objects| |done].
    by destruct (sweep_frame tick s) as (_ & _ & -> & _).
  - apply (published_sorted_frame st.1); [| |done];
      unfold kill_process; by repeat case_match.
Qed.

Lemma published_sorted_run (events : list Event) (st : Core * Q) :
  published_sorted st.1 -> published_sorted (run events st).1.
Proof.
  revert st. induction events as [|e events IH]; intros st Hok; simpl; [done|].
  by apply IH, published_sorted_apply_event.
Qed.

(** C6.  The list that a full update publishes is, in the state in which it
    is published, sorted by rolling-average CPU percent, largest first, and
    [get_process_list] returns it in that order.  In every state the engine
    reaches between loop iterations, under any schedule of iterations and
    control operations, the list returned by [get_process_list] is sorted
    and every entry of it denotes an instance.  The claim fails for a caller
    that runs while a full update is under way: [get_process_list] takes the
    lock and copies the list, but not the instances, and the cache hit of
    line 175 assigns [avg_cpu_percent] of an instance that the returned list
    holds; at the input [published], [second_scan] the caller reads the
    averages 50, 80. *)
Theorem C6_published_list_sorted
    (tick : Tick) (s : Core)
    (threshold interval : Q) (cpu_count : Z) (now : Q) (events : list Event) :
  let s' := full_update tick s in
  let reached := (run events (__init__ threshold interval cpu_count now, 0)).1 in
  (StronglySorted (fun x y => avg_key s' y <= avg_key s' x) (process_data s') /\
   get_process_list s' = process_data s' /\
   Spec.sorted_by_average (read_list s' (get_process_list s'))) /\
  (StronglySorted (fun x y => avg_key reached y <= avg_key reached x)
     (get_process_list reached) /\
   Spec.sorted_by_average (read_list reached (get_process_list reached)) /\
   length (read_list reached (get_process_list reached))
   = length (get_process_list reached)) /\
  (map ProcessInfo.avg_cpu_percent
     (read_list published.1 (get_process_list published.1)) = [50; 10] /\
   get_process_list refreshing = get_process_list published.1 /\
   map (fun i => Qred (ProcessInfo.avg_cpu_percent i))
     (read_list refreshing (get_process_list refreshing)) = [50; 80] /\
   ~ Spec.sorted_by_average (read_list refreshing (get_process_list refreshing))).
Proof.
  intros s' reached.
  pose proof (full_update_sorted tick s) as H. fold s' in H.
  assert (Hr : published_sorted reached).
  { apply (published_sorted_run events
             (__init__ threshold interval cpu_count now, 0)).
    constructor. }
  split; [|split].
  - split; [exact H|]. split; [done|]. by apply read_list_sorted.
  - split; [exact Hr|]. split; [by apply read_list_sorted|].
    apply read_list_length.
    apply (run_store events (__init__ threshold interval cpu_count now, 0)).
    apply store_ok_init.
  - exact refreshing_reads_unsorted.
Qed.

(** ** Cache TTL *)

Lemma get_process_info_expired
    (s : Core) (p : psutil.Process) (c : Clock) (e : CacheEntry) :
  process_cache s !! psutil.pid p = Some e ->
  cache_ttl s <= current_time c - timestamp e ->
  _get_process_info p c s = read_process p c s.
Proof.
  intros He Hage. unfold _get_process_info. rewrite He.
  replace (Qlt_bool _ _) with false; [done|].
  unfold Qlt_bool. apply Qle_bool_iff in Hage. by rewrite Hage.
Qed.

Lemma Qlt_bool_true (a b : Q) : a < b -> Qlt_bool a b = true.
Proof.
  intros H. unfold Qlt_bool. apply negb_true_iff, not_true_is_false.
  rewrite Qle_bool_iff. by apply Qlt_not_le.
Qed.

Lemma get_process_info_fresh
    (s : Core) (p : psutil.Process) (c : Clock) (e : CacheEntry) :
  process_cache s !! psutil.pid p = Some e ->
  current_time c - timestamp e < cache_ttl s ->
  _get_process_info p c s =
  match refresh_cached p c e s with
  | inl (info, s) => (Some info, s)
  | inr s => read_process p c s
  end.
Proof.
  intros He Hage. unfold _get_process_info. by rewrite He, Qlt_bool_true.
Qed.

Lemma refresh_cached_ok
    (s : Core) (p : psutil.Process) (c : Clock) (e : CacheEntry) (cpu mem : Q) :
  psutil.refresh_cpu_percent p = psutil.Ok cpu ->
  psutil.refresh_memory_percent p = psutil.Ok mem ->
  exists s' : Core,
    refresh_cached p c e s = inl (info e, s') /\
    process_cache s' = process_cache s /\
    objects s' !! info e =
      refreshed cpu mem (threshold s) (average_after (psutil.pid p) cpu c s)
        <$> objects s !! info e /\
    (forall l : loc, l <> info e -> objects s' !! l = objects s !! l).
Proof.
  intros Hcpu Hmem. unfold refresh_cached. rewrite Hcpu, Hmem.
  eexists. split; [reflexivity|]. split; [done|]. split.
  - unfold assign. simpl. rewrite !lookup_alter_eq.
    destruct (objects s !! info e) as [i|]; simpl; [|done].
    done.
  - intros l Hl. unfold assign. simpl. by rewrite !lookup_alter_ne.
Qed.

Lemma refresh_cached_raises
    (s : Core) (p : psutil.Process) (c : Clock) (e : CacheEntry) :
  (forall cpu, psutil.refresh_cpu_percent p <> psutil.Ok cpu) \/
  (forall mem, psutil.refresh_memory_percent p <> psutil.Ok mem) ->
  exists s' : Core,
    refresh_cached p c e s = inr s' /\
    process_cache s' !! psutil.pid p = None.
Proof.
  intros H. unfold refresh_cached.
  destruct (psutil.refresh_cpu_percent p) as [cpu| | |] eqn:Ecpu;
    [destruct (psutil.refresh_memory_percent p) as [mem| | |] eqn:Emem|..];
    try (eexists; split; [reflexivity|]; simpl; apply lookup_delete_eq).
  destruct H as [H|H]; [by destruct (H cpu) | by destruct (H mem)].
Qed.

Lemma refresh_cached_ext
    (p p' : psutil.Process) (c : Clock) (e : CacheEntry) (s : Core) :
  psutil.pid p' = psutil.pid p ->
  psutil.refresh_cpu_percent p' = psutil.refresh_cpu_percent p ->
  psutil.refresh_memory_percent p' = psutil.refresh_memory_percent p ->
  refresh_cached p' c e s = refresh_cached p c e s.
Proof. intros H1 H2 H3. unfold refresh_cached. by rewrite H1, H2, H3. Qed.

(** C3 (as amended).  For a cached PID, with age = query time - entry
    timestamp and TTL = [cache_ttl] (5 seconds):
    - at age >= TTL the query is the full re-read;
    - at age < TTL, when the CPU and memory refresh reads succeed, the cached
      instance is returned, refreshed in place in its CPU percent, memory
      percent, status and rolling average (its other fields, the cache entry
      and its timestamp, and all other instances are unchanged), and no other
      read site of the process influences the result;
    - at age < TTL, when a refresh read raises, the entry is evicted and the
      query is the full re-read;
    - in particular, for an entry written at t = 0, a query at t = 5.0001 is
      the full re-read and a query at t = 4.9999 whose refresh reads succeed
      returns the cached instance. *)
Theorem C3_cache_ttl
    (s : Core) (p : psutil.Process) (c : Clock) (e : CacheEntry) :
  process_cache s !! psutil.pid p = Some e ->
  let age := current_time c - timestamp e in
  let fresh_hit :=
    forall cpu mem : Q,
      psutil.refresh_cpu_percent p = psutil.Ok cpu ->
      psutil.refresh_memory_percent p = psutil.Ok mem ->
      let s' := (_get_process_info p c s).2 in
      (_get_process_info p c s).1 = Some (info e) /\
      process_cache s' = process_cache s /\
      objects s' !! info e =
        refreshed cpu mem (threshold s) (average_after (psutil.pid p) cpu c s)
          <$> objects s !! info e /\
      (forall l : loc, l <> info e -> objects s' !! l = objects s !! l) /\
      (forall p' : psutil.Process,
         psutil.pid p' = psutil.pid p ->
         psutil.refresh_cpu_percent p' = psutil.Ok cpu ->
         psutil.refresh_memory_percent p' = psutil.Ok mem ->
         _get_process_info p' c s = _get_process_info p c s) in
  (cache_ttl s <= age -> _get_process_info p c s = read_process p c s) /\
  (age < cache_ttl s -> fresh_hit) /\
  (age < cache_ttl s ->
   (forall cpu, psutil.refresh_cpu_percent p <> psutil.Ok cpu) \/
   (forall mem, psutil.refresh_memory_percent p <> psutil.Ok mem) ->
   exists evicted : Core,
     process_cache evicted !! psutil.pid p = None /\
     _get_process_info p c s = read_process p c evicted) /\
  (cache_ttl s = 5 -> timestamp e = 0 ->
   (current_time c = 50001 # 10000 ->
    _get_process_info p c s = read_process p c s) /\
   (current_time c = 49999 # 10000 -> fresh_hit)).
Proof.
  intros He age fresh_hit.
  assert (Hfresh : age < cache_ttl s -> fresh_hit).
  { intros Hage cpu mem Hcpu Hmem s'.
    destruct (refresh_cached_ok s p c e cpu mem Hcpu Hmem)
      as (s1 & Hr & Hc & Ho & Hothers).
    assert (E : _get_process_info p c s = (Some (info e), s1)).
    { rewrite (get_process_info_fresh s p c e He Hage). by rewrite Hr. }
    unfold s'. rewrite E. simpl.
    split; [done|]. split; [done|]. split; [done|]. split; [done|].
    intros p' Hpid Hcpu' Hmem'.
    rewrite (get_process_info_fresh s p' c e) by (by rewrite ?Hpid).
    rewrite (refresh_cached_ext p p') by congruence. by rewrite Hr. }
  split; [|split; [|split]].
  - by apply get_process_info_expired.
  - exact Hfresh.
  - intros Hage Hraise.
    destruct (refresh_cached_raises s p c e Hraise) as (s1 & Hr & Hc).
    exists s1. split; [done|].
    rewrite (get_process_info_fresh s p c e He Hage). by rewrite Hr.
  - intros Httl Hts. split.
    + intros Ht. apply (get_process_info_expired s p c e He).
      rewrite Httl, Hts, Ht. done.
    + intros Ht. apply Hfresh. unfold age. rewrite Httl, Hts, Ht. done.
Qed.

Lemma C3_cache_ttl_witness :
  let e := {| info := 0%nat; timestamp := 0 |} in
  process_cache cached_at_0 !! 7%Z = Some e /\
  _get_process_info (live_process 7 20) (at_time (50001 # 10000)) cached_at_0
  = read_process (live_process 7 20) (at_time (50001 # 10000)) cached_at_0 /\
  (_get_process_info (live_process 7 20) (at_time (49999 # 10000)) cached_at_0).1
  = Some 0%nat.
Proof.
  intros e.
  assert (He : process_cache cached_at_0 !! psutil.pid (live_process 7 20) = Some e)
    by (vm_compute; reflexivity).
  split; [exact He|]. split.
  - destruct (C3_cache_ttl cached_at_0 (live_process 7 20)
                (at_time (50001 # 10000)) e He) as (_ & _ & _ & H).
    destruct H as [H _]; [reflexivity ..|]. by apply H.
  - destruct (C3_cache_ttl cached_at_0 (live_process 7 20)
                (at_time (49999 # 10000)) e He) as (_ & H & _).
    destruct (H eq_refl 20 1 eq_refl eq_refl) as (H1 & _). exact H1.
Defined.

(** C3, as stated, fails for a cached PID whose refresh read raises: at age
    1 < 5 the cached instance is not returned; the entry is evicted and the
    full re-read runs (here it finds the process gone). *)
Lemma C3_counterexample :
  let p := exited_process 7 in
  let c := at_time 1 in
  let e := {| info := 0%nat; timestamp := 0 |} in
  process_cache cached_at_0 !! 7%Z = Some e /\
  current_time c - timestamp e < cache_ttl cached_at_0 /\
  (_get_process_info p c cached_at_0).1 = None /\
  (_get_process_info p c cached_at_0).1 <> Some (info e) /\
  process_cache (_get_process_info p c cached_at_0).2 !! 7%Z = None /\
  _get_process_info p c cached_at_0
  = read_process p c
      (set_process_cache (delete 7%Z (process_cache cached_at_0)) cached_at_0).
Proof.
  repeat split; try (vm_compute; reflexivity).
  vm_compute. discriminate.
Qed.

(** ** Process termination *)

(** C4 (as amended).  [kill_process] always returns a boolean (no exception
    reaches the caller).  It returns false when the process no longer exists
    and, on a platform other than Windows, when termination is denied (on
    Windows a denied termination falls back to [taskkill]).  Whenever it
    returns true the PID has no cache entry any more, and when it returns
    false the engine is unchanged.  It never touches the published list: the
    list returned by [get_process_list] after the call is the one returned
    before it, so after a call on a non-existent PID the list excludes the
    PID exactly when it did before. *)
Theorem C4_kill_process
    (pid : Z) (os : psutil.Termination) (win32 : bool) (s : Core) :
  let r := (kill_process pid os win32 s).1 in
  let s' := (kill_process pid os win32 s).2 in
  (psutil.terminate os = psutil.NoSuchProcess -> r = false) /\
  (psutil.terminate os = psutil.AccessDenied -> win32 = false -> r = false) /\
  (psutil.terminate os = psutil.Ok () -> r = true) /\
  (r = true -> process_cache s' !! pid = None) /\
  (r = false -> s' = s) /\
  get_process_list s' = get_process_list s /\
  listed_pids s' = listed_pids s.
Proof.
  unfold kill_process, listed_pids, read_list, get_process_list.
  destruct (psutil.terminate os) as [[]| | |], win32,
    (psutil.taskkill_raises os); simpl;
    repeat split; try done; intros; by rewrite ?lookup_delete_eq.
Qed.

Lemma C4_kill_process_witness :
  let s := (run [Iteration (scan_tick 10 [live_process 42 5])]
              (__init__ 70 2 4%Z 0, 0)).1 in
  (kill_process 42 gone false s).1 = false /\
  (kill_process 42 denied false s).1 = false /\
  process_cache
    (kill_process 42 {| psutil.terminate := psutil.Ok ();
                        psutil.taskkill_raises := false |} false s).2 !! 42%Z
  = None.
Proof.
  intros s. split; [|split].
  - destruct (C4_kill_process 42 gone false s) as (H & _).
    apply H. reflexivity.
  - destruct (C4_kill_process 42 denied false s) as (_ & H & _).
    apply H; reflexivity.
  - destruct (C4_kill_process 42
                {| psutil.terminate := psutil.Ok ();
                   psutil.taskkill_raises := false |} false s)
      as (_ & _ & Hok & Hev & _).
    apply Hev, Hok. reflexivity.
Defined.

(** C4, as stated, fails.  Process 42 was published by the last full update
    and has exited since: [kill_process 42] returns false and the list
    returned by [get_process_list] afterwards still contains PID 42.  And on
    Windows a denied termination returns true. *)
Lemma C4_counterexample :
  let s := (run [Iteration (scan_tick 10 [live_process 42 5])]
              (__init__ 70 2 4%Z 0, 0)).1 in
  ((kill_process 42 gone false s).1 = false /\
   listed_pids (kill_process 42 gone false s).2 = [42%Z]) /\
  (kill_process 42 denied true s).1 = true.
Proof. vm_compute. repeat split. Qed.

(** ** Denied reads *)

Lemma read_fields_denied (p : psutil.Process) (c : Clock) (s : Core) :
  mandatory_denied p -> read_fields p c s = psutil.AccessDenied.
Proof.
  unfold read_fields, mbind, result_bind.
  intros [Hn | (name & Hn & [Hc | (cpu & Hc & Hm)])]; by rewrite ?Hn, ?Hc, ?Hm.
Qed.

Lemma read_process_status (p : psutil.Process) (c : Clock) (s : Core)
    (l : loc) (i : ProcessInfo.t) :
  (read_process p c s).1 = Some l ->
  objects (read_process p c s).2 !! l = Some i ->
  exists x : Spec.Status, ProcessInfo.status i = Spec.label x.
Proof.
  unfold read_process, read_fields, mbind, result_bind, new_object.
  destruct (psutil.name p), (psutil.cpu_percent p), (psutil.memory_percent p);
    simpl; try destruct (psutil.name_denied p); simpl; try done;
    intros Hl Hi; simplify_eq; rewrite lookup_insert_eq in Hi; simplify_eq;
    simpl; try (by exists Spec.Unknown).
  all: destruct (Qgt_bool _ _); [by exists Spec.High | by exists Spec.Normal].
Qed.

Lemma get_process_info_status (p : psutil.Process) (c : Clock) (s : Core)
    (l : loc) (i : ProcessInfo.t) :
  (_get_process_info p c s).1 = Some l ->
  objects (_get_process_info p c s).2 !! l = Some i ->
  exists x : Spec.Status, ProcessInfo.status i = Spec.label x.
Proof.
  unfold _get_process_info.
  destruct (process_cache s !! psutil.pid p) as [e|];
    [destruct (Qlt_bool _ _)|]; try apply read_process_status.
  destruct (psutil.refresh_cpu_percent p) as [cpu| | |] eqn:Ecpu;
    [destruct (psutil.refresh_memory_percent p) as [mem| | |] eqn:Emem|..];
    try (unfold refresh_cached; rewrite Ecpu, ?Emem; apply read_process_status).
  destruct (refresh_cached_ok s p c e cpu mem Ecpu Emem) as (s' & -> & _ & Ho & _).
  simpl. intros Hl Hi. simplify_eq. rewrite Ho in Hi.
  destruct (objects s !! info e) as [i0|]; simpl in Hi; simplify_eq. simpl.
  destruct (Qgt_bool cpu (threshold s));
    [by exists Spec.High | by exists Spec.Normal].
Qed.

(** C8 (as amended).
    - When the OS denies the name, the CPU percent or the memory percent, and
      the name can be read again, the read returns a new cached [ProcessInfo]
      with that name, CPU and memory percent 0, user "N/A", creation time 0,
      thread count 0, rolling average 0 and status "N/A" (Unknown); when the
      name cannot be read again, no [ProcessInfo] is returned.
    - When those three reads succeed, the read returns a [ProcessInfo]; a
      denied user is "N/A", a denied creation time is 0, a denied thread
      count is 0, a denied command line is the process name.
    - The status of every [ProcessInfo] returned by [_get_process_info] is
      one of Normal, High, Unknown (written "Normal", "HIGH", "N/A"). *)
Theorem C8_denied_read (s : Core) (p : psutil.Process) (c : Clock) :
  (mandatory_denied p ->
   forall name : string, psutil.name_denied p = psutil.Ok name ->
   exists l : loc,
     read_process p c s = 
       (Some l,
        set_process_cache
          (<[psutil.pid p := {| info := l; timestamp := current_time c |}]>
             (process_cache s))
          (set_objects
             (<[l := access_denied_info name (psutil.pid p)]> (objects s)) s)) /\
     objects s !! l = None) /\
  (mandatory_denied p ->
   (forall name : string, psutil.name_denied p <> psutil.Ok name) ->
   read_process p c s = (None, s)) /\
  (forall (name : string) (cpu mem : Q),
     psutil.name p = psutil.Ok name ->
     psutil.cpu_percent p = psutil.Ok cpu ->
     psutil.memory_percent p = psutil.Ok mem ->
     exists (l : loc) (i : ProcessInfo.t),
       (read_process p c s).1 = Some l /\
       objects (read_process p c s).2 !! l = Some i /\
       ProcessInfo.name i = name /\
       ProcessInfo.cpu_percent i = cpu /\
       ProcessInfo.memory_percent i = mem /\
       (psutil.username p = psutil.AccessDenied ->
        ProcessInfo.username i = "N/A"%string) /\
       (psutil.create_time p = psutil.AccessDenied ->
        ProcessInfo.create_time i = 0) /\
       (psutil.num_threads p = psutil.AccessDenied ->
        ProcessInfo.threads i = 0%Z) /\
       (psutil.cmdline p = psutil.AccessDenied ->
        ProcessInfo.command i = name)) /\
  (forall (l : loc) (i : ProcessInfo.t),
     (_get_process_info p c s).1 = Some l ->
     objects (_get_process_info p c s).2 !! l = Some i ->
     exists x : Spec.Status, ProcessInfo.status i = Spec.label x).
Proof.
  split; [|split; [|split]].
  - intros Hd name Hname. exists (fresh (dom (objects s))).
    unfold read_process. rewrite (read_fields_denied p c s Hd), Hname.
    split; [done|]. apply not_elem_of_dom, is_fresh.
  - intros Hd Hname. unfold read_process.
    rewrite (read_fields_denied p c s Hd).
    destruct (psutil.name_denied p) as [name| | |]; [|done ..].
    by destruct (Hname name).
  - intros name cpu mem Hn Hc Hm.
    unfold read_process, read_fields, mbind, result_bind, new_object.
    rewrite Hn, Hc, Hm. simpl.
    eexists _, _. split; [reflexivity|]. rewrite lookup_insert_eq.
    split; [reflexivity|]. simpl.
    repeat split; try done; by intros ->.
  - apply get_process_info_status.
Qed.

Lemma C8_denied_read_witness :
  let s := __init__ 70 2 4%Z 0 in
  mandatory_denied (guarded_process 4) /\
  (exists l : loc,
     (read_process (guarded_process 4) (at_time 1) s).1 = Some l /\
     objects (read_process (guarded_process 4) (at_time 1) s).2 !! l
     = Some (access_denied_info "System" 4)) /\
  mandatory_denied (restricted_process 4) /\
  read_process (restricted_process 4) (at_time 1) s = (None, s).
Proof.
  intros s.
  assert (Hg : mandatory_denied (guarded_process 4)).
  { right. exists "System"%string. split; [reflexivity|]. left. reflexivity. }
  assert (Hr : mandatory_denied (restricted_process 4)) by (left; reflexivity).
  split; [exact Hg|]. split; [|split; [exact Hr|]].
  - destruct (C8_denied_read s (guarded_process 4) (at_time 1)) as (H & _).
    destruct (H Hg "System"%string eq_refl) as (l & E & _).
    exists l. rewrite E. simpl. split; [reflexivity|]. apply lookup_insert_eq.
  - destruct (C8_denied_read s (restricted_process 4) (at_time 1)) as (_ & H & _).
    apply H; [exact Hr|]. intros name. discriminate.
Defined.

(** C8, as stated, fails when the OS denies every read of a process, its
    name included: the read does not succeed, no [ProcessInfo] is returned. *)
Lemma C8_counterexample :
  let s := __init__ 70 2 4%Z 0 in
  psutil.name (restricted_process 4) = psutil.AccessDenied /\
  (_get_process_info (restricted_process 4) (at_time 1) s).1 = None.
Proof. split; reflexivity. Qed.

(** ** Status *)

(** C1: the engine at the failing input.  With threshold 70, process 7 is
    published with CPU percent 50 and rolling average 75 > 70, and its
    [status] field is "Normal": the field follows the instantaneous CPU
    percent, on the cache hit (line 172) and on the full re-read (line 204)
    alike.  The table of the UI derives "HIGH" from the same entry. *)
Theorem C1_status_follows_instantaneous_cpu :
  published_entry (busy_then_calm 12 [RequestUpdate])
  = Some (7%Z, 50, 75, "Normal"%string, "HIGH"%string) /\
  published_entry (busy_then_calm 20 [])
  = Some (7%Z, 50, 75, "Normal"%string, "HIGH"%string) /\
  threshold (busy_then_calm 12 [RequestUpdate]) = 70 /\
  threshold (busy_then_calm 20 []) = 70.
Proof. repeat split; vm_compute; reflexivity. Qed.

(** ** Update requests *)

(** One call of [_get_process_info], from the cache's point of view. *)
Lemma get_process_info_cases (p : psutil.Process) (c : Clock) (s : Core) :
  (exists (e : CacheEntry) (cpu mem : Q) (s' : Core),
     process_cache s !! psutil.pid p = Some e /\
     current_time c - timestamp e < cache_ttl s /\
     psutil.refresh_cpu_percent p = psutil.Ok cpu /\
     psutil.refresh_memory_percent p = psutil.Ok mem /\
     refresh_cached p c e s = inl (info e, s') /\
     _get_process_info p c s = (Some (info e), s')) \/
  (exists s0 : Core,
     _get_process_info p c s = read_process p c s0 /\
     threshold s0 = threshold s /\
     process_cpu_history s0 = process_cpu_history s /\
     history_window s0 = history_window s /\
     (process_cache s0 = process_cache s \/
      process_cache s0 = delete (psutil.pid p) (process_cache s))).
Proof.
  unfold _get_process_info.
  destruct (process_cache s !! psutil.pid p) as [e|] eqn:He;
    [|right; exists s; eauto 10].
  destruct (Qlt_bool _ _) eqn:Hage; [|right; exists s; eauto 10].
  assert (Hlt : current_time c - timestamp e < cache_ttl s).
  { unfold Qlt_bool in Hage. apply negb_true_iff in Hage.
    apply Qnot_le_lt. intros H. apply Qle_bool_iff in H. congruence. }
  destruct (psutil.refresh_cpu_percent p) as [cpu| | |] eqn:Ecpu;
    [destruct (psutil.refresh_memory_percent p) as [mem| | |] eqn:Emem|..];
    try (right; unfold refresh_cached; rewrite Ecpu, ?Emem;
         eexists; split; [reflexivity|]; simpl; eauto 10).
  left. destruct (refresh_cached_ok s p c e cpu mem Ecpu Emem) as (s' & Hr & _).
  exists e, cpu, mem, s'. rewrite Hr. eauto 10.
Qed.

Lemma full_update_primary (tick : Tick) (s : Core) :
  full_update tick s =
  let '(processes, s) := primary tick s in
  let '(processes, s) :=
    match processes with
    | [] =>
        match pids tick with
        | Some pids => collect (omap id (take 100 pids)) [] s
        | None => ([], s)
        end
    | _ => (processes, s)
    end in
  set_update_queue (update_queue s ++ [true])
    (set_process_data (sort_desc (avg_key s) processes) s).
Proof. unfold full_update, primary, ranked. by destruct (process_iter tick). Qed.

Lemma full_update_gathered (tick : Tick) (s : Core) :
  full_update tick s =
  set_update_queue (update_queue (gathered tick s).2 ++ [true])
    (set_process_data
       (sort_desc (avg_key (gathered tick s).2) (gathered tick s).1)
       (gathered tick s).2).
Proof.
  rewrite full_update_primary. unfold gathered.
  destruct (primary tick s) as [processes s1].
  by destruct (match processes with [] => _ | _ => _ end).
Qed.

(** One call of [_get_process_info] records at most one sample, and only for
    the PID of its process. *)
Lemma get_process_info_history
    (p : psutil.Process) (c : Clock) (s : Core) (pid : Z) :
  exists extra : list (Q * Q),
    samples_of (_get_process_info p c s).2 pid = samples_of s pid ++ extra /\
    (length extra <= if Z.eqb (psutil.pid p) pid then 1 else 0)%nat.
Proof.
  unfold samples_of.
  assert (Hcase : process_cpu_history (_get_process_info p c s).2
                  = process_cpu_history s \/
                  exists cpu : Q,
                    process_cpu_history (_get_process_info p c s).2
                    = <[psutil.pid p :=
                          default [] (process_cpu_history s !! psutil.pid p)
                          ++ [(record_time c, cpu)]]> (process_cpu_history s)).
  { destruct (get_process_info_cases p c s)
      as [(e & cpu & mem & s' & He & Hage & Hcpu & Hmem & Hr & ->)
         |(s0 & -> & _ & Hh & _)].
    - unfold refresh_cached in Hr. rewrite Hcpu, Hmem in Hr. simplify_eq.
      right. by exists cpu.
    - rewrite <- Hh.
      unfold read_process, read_fields, mbind, result_bind, new_object,
        _update_process_cpu_history.
      destruct (psutil.name p) as [name| | |];
        [destruct (psutil.cpu_percent p) as [cpu| | |];
         [destruct (psutil.memory_percent p) as [mem| | |]|..]|..];
        simpl; try destruct (psutil.name_denied p); simpl;
        try (by left); right; by exists cpu. }
  destruct Hcase as [->|(cpu & ->)].
  - exists []. rewrite app_nil_r. split; [done|]. simpl. lia.
  - destruct (Z.eqb_spec (psutil.pid p) pid) as [->|Hne].
    + rewrite lookup_insert_eq. simpl. by eexists.
    + rewrite lookup_insert_ne by done. exists []. by rewrite app_nil_r.
Qed.

Lemma collect_history (scans : list Scan) (acc : list loc) (s : Core) (pid : Z) :
  exists extra : list (Q * Q),
    samples_of (collect scans acc s).2 pid = samples_of s pid ++ extra /\
    (length extra <= reads_of pid scans)%nat.
Proof.
  revert acc s. induction scans as [|x scans IH]; intros acc s; simpl.
  - exists []. by rewrite app_nil_r.
  - destruct (get_process_info_history (process x) (clock x) s pid)
      as (e1 & H1 & L1).
    destruct (_get_process_info (process x) (clock x) s) as [r s'].
    simpl in H1.
    destruct (IH (match r with Some i => acc ++ [i] | None => acc end) s')
      as (e2 & H2 & L2).
    exists (e1 ++ e2). rewrite H2, H1, app_assoc. split; [done|].
    rewrite length_app. unfold reads_of in *. simpl.
    destruct (Z.eqb (psutil.pid (process x)) pid); simpl; lia.
Qed.

Lemma gathered_history (tick : Tick) (s : Core) (pid : Z) :
  exists extra : list (Q * Q),
    samples_of (gathered tick s).2 pid = samples_of s pid ++ extra /\
    (length extra
     <= reads_of pid (scanned_primary tick) + reads_of pid (scanned_fallback tick))%nat.
Proof.
  unfold gathered, primary, scanned_primary, scanned_fallback.
  assert (H0 : samples_of (set_update_event false s) pid = samples_of s pid)
    by done.
  assert (Hp : exists (e1 : list (Q * Q)),
            samples_of (match process_iter tick with
                        | Some it => collect (ranked it) [] (set_update_event false s)
                        | None => ([], set_update_event false s)
                        end).2 pid = samples_of s pid ++ e1 /\
            (length e1 <= reads_of pid (match process_iter tick with
                                        | Some it => ranked it
                                        | None => []
                                        end))%nat).
  { destruct (process_iter tick) as [it|].
    - destruct (collect_history (ranked it) [] (set_update_event false s) pid)
        as (e1 & H1 & L1). exists e1. by rewrite H1, H0.
    - exists []. simpl. rewrite H0, app_nil_r. split; [done|]. lia. }
  destruct Hp as (e1 & H1 & L1).
  destruct (match process_iter tick with
            | Some it => collect (ranked it) [] (set_update_event false s)
            | None => ([], set_update_event false s)
            end) as [processes s1].
  simpl in H1.
  destruct processes as [|l0 processes].
  - destruct (pids tick) as [ps|].
    + destruct (collect_history (omap id (take 100 ps)) [] s1 pid)
        as (e2 & H2 & L2).
      exists (e1 ++ e2). rewrite H2, H1, app_assoc. split; [done|].
      rewrite length_app. lia.
    + exists e1. simpl. split; [done|]. lia.
  - exists e1. simpl. split; [done|]. lia.
Qed.

(** C7.  Any number [n >= 1] of calls of [request_update] leaves the engine
    as one call does, so the next loop iteration is the one that follows a
    single call.  That iteration performs one full update: it clears the
    signal, queues one notification, and publishes the list gathered by one
    pass of the scan of lines 361-393 over the processes (the entries that
    [_get_process_info] returned, sorted by average), leaving the cache, the
    sample histories and the instances as that one pass left them; each PID
    gains at most one sample per occurrence in the enumerations of that
    pass.  The iteration after it, with no new request and less than 5
    seconds later, performs no full update: the queue, the published list
    and the signal stay as they are. *)
Theorem C7_request_update_coalesces
    (n : nat) (tick : Tick) (s : Core) (last_full_update : Q) :
  (1 <= n)%nat ->
  let requested := Nat.iter n request_update s in
  let st := _monitor_loop_body tick (requested, last_full_update) in
  let swept := sweep tick (request_update s) in
  let g := gathered tick swept in
  requested = request_update s /\
  st = (full_update tick (sweep tick (request_update s)), tick_time tick) /\
  update_event st.1 = false /\
  update_queue st.1 = update_queue s ++ [true] /\
  (forall next : Tick,
     tick_time next - tick_time tick < 5 ->
     let st' := _monitor_loop_body next st in
     update_queue st'.1 = update_queue st.1 /\
     process_data st'.1 = process_data st.1 /\
     update_event st'.1 = false) /\
  st = _monitor_loop_body tick (request_update s, last_full_update) /\
  get_process_list st.1 = sort_desc (avg_key g.2) g.1 /\
  get_process_list st.1 ≡ₚ g.1 /\
  objects st.1 = objects g.2 /\
  process_cache st.1 = process_cache g.2 /\
  process_cpu_history st.1 = process_cpu_history g.2 /\
  (forall pid : Z,
     exists extra : list (Q * Q),
       samples_of st.1 pid = samples_of swept pid ++ extra /\
       (length extra
        <= reads_of pid (scanned_primary tick)
           + reads_of pid (scanned_fallback tick))%nat).
Proof.
  intros Hn requested st swept g.
  assert (Hreq : requested = request_update s) by by apply request_update_iter.
  assert (Hone : st = _monitor_loop_body tick (request_update s, last_full_update))
    by (unfold st; by rewrite Hreq).
  assert (Hst : st = (full_update tick (sweep tick (request_update s)),
                      tick_time tick)).
  { unfold st. rewrite Hreq. by apply monitor_loop_body_full. }
  destruct (full_update_frame tick (sweep tick (request_update s)))
    as (_ & _ & _ & _ & He & Hq).
  destruct (sweep_frame tick (request_update s)) as (_ & Hq' & _).
  pose proof (full_update_gathered tick swept) as Hg. fold g in Hg.
  assert (Hst1 : st.1 = full_update tick swept) by by rewrite Hst.
  clearbody st requested. subst requested.
  split; [done|]. split; [done|].
  split; [by rewrite Hst|].
  split; [by rewrite Hst; cbn [fst]; rewrite Hq, Hq'|].
  split.
  { intros next Hlt. cbv zeta. rewrite Hst.
    rewrite monitor_loop_body_idle by done. cbn [fst].
    destruct (sweep_frame next (full_update tick (sweep tick (request_update s))))
      as (He' & Hq'' & Hp & _).
    by rewrite He', Hq'', Hp. }
  split; [done|].
  rewrite Hst1, Hg. unfold get_process_list.
  cbn [process_data objects process_cache process_cpu_history
       set_update_queue set_process_data].
  split; [done|]. split; [apply sort_desc_Permutation|].
  split; [done|]. split; [done|]. split; [done|].
  intros pid. destruct (gathered_history tick swept pid) as (extra & H1 & L1).
  exists extra. split; [|done]. exact H1.
Qed.

(** Five requests, then an iteration two seconds after the last full update
    that finds processes 1 and 2: both are published, and each has the one
    sample of that iteration. *)
Lemma C7_request_update_coalesces_witness :
  let s := __init__ 70 2 4%Z 0 in
  let st := _monitor_loop_body first_scan (Nat.iter 5 request_update s, 8) in
  (1 <= 5)%nat /\
  update_event st.1 = false /\ update_queue st.1 = update_queue s ++ [true] /\
  st = _monitor_loop_body first_scan (request_update s, 8) /\
  listed_pids st.1 = [1; 2]%Z /\
  samples_of st.1 1 = [(10, 50)] /\ samples_of st.1 2 = [(10, 10)] /\
  (exists extra : list (Q * Q),
     samples_of st.1 1 = extra /\ (length extra <= 1)%nat) /\
  tick_time (scan_tick 12 []) - tick_time first_scan < 5 /\
  update_queue (_monitor_loop_body (scan_tick 12 []) st).1 = update_queue st.1.
Proof.
  intros s st.
  destruct (C7_request_update_coalesces 5 first_scan s 8)
    as (_ & _ & He & Hq & Hnext & Hone & _ & _ & _ & _ & _ & Hsamples); [lia|].
  split; [lia|]. split; [exact He|]. split; [exact Hq|].
  split; [exact Hone|].
  split; [vm_compute; reflexivity|].
  split; [vm_compute; reflexivity|].
  split; [vm_compute; reflexivity|].
  split.
  { destruct (Hsamples 1%Z) as (extra & H1 & L1). exists extra.
    split; [exact H1|]. exact L1. }
  split; [reflexivity|].
  apply (Hnext (scan_tick 12 [])). reflexivity.
Defined.

(** * Further properties of the engine *)

Lemma recent_true (cutoff : Q) (tc : Q * Q) :
  recent cutoff tc = true <-> cutoff <= tc.1.
Proof. unfold recent, Qge_bool. apply Qle_bool_iff. Qed.

Lemma filter_filter_weaker {A : Type} (f g : A -> bool) (l : list A) :
  (forall x, f x = true -> g x = true) ->
  List.filter f (List.filter g l) = List.filter f l.
Proof.
  intros H. induction l as [|x l IH]; simpl; [done|].
  destruct (g x) eqn:Eg; simpl.
  - by rewrite IH.
  - destruct (f x) eqn:Ef; [|done]. rewrite (H x Ef) in Eg. done.
Qed.

Lemma recent_later (cutoff cutoff' : Q) (tc : Q * Q) :
  cutoff <= cutoff' -> recent cutoff' tc = true -> recent cutoff tc = true.
Proof.
  rewrite !recent_true. intros H1 H2. by apply Qle_trans with cutoff'.
Qed.

Lemma lookup_cleanup_process_history (t : Q) (s : Core) (pid : Z) :
  process_cpu_history (_cleanup_process_history t s) !! pid =
  match process_cpu_history s !! pid with
  | Some history =>
      match kept_samples (t - history_window s) history with
      | [] => None
      | h => Some h
      end
  | None => None
  end.
Proof.
  unfold _cleanup_process_history. simpl. rewrite lookup_omap.
  destruct (process_cpu_history s !! pid) as [h|]; simpl; [|done].
  unfold kept_samples. by destruct (List.filter _ h).
Qed.

(** X1.  Pruning the sample histories at time [t] changes no rolling average
    queried at that time or later: the samples it drops are older than any
    later window. *)
Theorem X1_prune_keeps_average (s : Core) (pid : Z) (t now : Q) :
  t <= now ->
  _calculate_average_cpu pid now (_cleanup_process_history t s)
  = _calculate_average_cpu pid now s.
Proof.
  intros Hle. unfold _calculate_average_cpu.
  rewrite lookup_cleanup_process_history.
  change (history_window (_cleanup_process_history t s)) with (history_window s).
  destruct (process_cpu_history s !! pid) as [h|]; [|done].
  assert (Hc : t - history_window s <= now - history_window s).
  { apply Qplus_le_compat; [done | apply Qle_refl]. }
  assert (Hf : List.filter (recent (now - history_window s))
                 (kept_samples (t - history_window s) h)
               = List.filter (recent (now - history_window s)) h).
  { apply filter_filter_weaker. intros x. by apply recent_later. }
  destruct (kept_samples (t - history_window s) h) as [|x l] eqn:Ek.
  - simpl in Hf. by rewrite <- Hf.
  - by rewrite Hf.
Qed.

Lemma X1_prune_keeps_average_witness :
  let s := with_samples 5 [(0, 10); (60, 20); (120, 30)] in
  190 <= 200 /\
  _calculate_average_cpu 5 200 (_cleanup_process_history 190 s)
  = _calculate_average_cpu 5 200 s.
Proof.
  intros s. split; [discriminate|].
  apply (X1_prune_keeps_average s 5 190 200). discriminate.
Defined.

Lemma Forall_filter_bool {A : Type} (f : A -> bool) (l : list A) :
  Forall (fun x => f x = true) (List.filter f l).
Proof.
  induction l as [|x l IH]; simpl; [constructor|].
  destruct (f x) eqn:E; [by constructor | done].
Qed.

Lemma filter_none {A : Type} (f : A -> bool) (l : list A) :
  Forall (fun x => f x = false) l -> List.filter f l = [].
Proof. induction 1 as [|x l Hx _ IH]; simpl; [done|]. by rewrite Hx. Qed.

(** X2.  After [_cleanup_process_history] at time [t], the history kept for
    a PID is never empty, holds exactly its former samples with timestamp at
    least [t - history_window], in their order; a PID all of whose samples
    are older is removed from the table, and no PID is added. *)
Theorem X2_prune_result (s : Core) (t : Q) (pid : Z) :
  let cutoff := t - history_window s in
  let s' := _cleanup_process_history t s in
  (forall h : list (Q * Q),
     process_cpu_history s' !! pid = Some h ->
     h <> [] /\ Forall (fun tc => cutoff <= tc.1) h /\
     exists h0, process_cpu_history s !! pid = Some h0 /\ h = kept_samples cutoff h0) /\
  (forall h0 : list (Q * Q),
     process_cpu_history s !! pid = Some h0 ->
     Forall (fun tc => tc.1 < cutoff) h0 ->
     process_cpu_history s' !! pid = None) /\
  (process_cpu_history s !! pid = None ->
   process_cpu_history s' !! pid = None).
Proof.
  intros cutoff s'. unfold s'. rewrite lookup_cleanup_process_history.
  fold cutoff. split; [|split].
  - intros h. destruct (process_cpu_history s !! pid) as [h0|]; [|done].
    destruct (kept_samples cutoff h0) as [|x l] eqn:Ek; [done|].
    intros ?; simplify_eq. split; [done|]. split; [|by exists h0].
    rewrite <- Ek. unfold kept_samples.
    eapply Forall_impl; [apply Forall_filter_bool|].
    intros tc. apply recent_true.
  - intros h0 -> Hstale. unfold kept_samples. rewrite filter_none; [done|].
    eapply Forall_impl; [exact Hstale|]. intros tc Hlt. simpl in Hlt.
    apply not_true_is_false. rewrite recent_true. by apply Qlt_not_le.
  - by intros ->.
Qed.

Lemma X2_prune_result_witness :
  let s := with_samples 5 [(0, 10); (60, 20); (120, 30)] in
  process_cpu_history (_cleanup_process_history 250 s) !! 5%Z
  = Some [(120, 30)] /\
  [(120, 30)] <> [] /\
  process_cpu_history (_cleanup_process_history 400 s) !! 5%Z = None.
Proof.
  intros s.
  assert (E : process_cpu_history (_cleanup_process_history 250 s) !! 5%Z
              = Some [(120, 30)]) by (vm_compute; reflexivity).
  split; [exact E|]. split.
  - destruct (X2_prune_result s 250 5) as (H & _).
    destruct (H [(120, 30)] E) as (Hne & _). exact Hne.
  - destruct (X2_prune_result s 400 5) as (_ & H & _).
    apply (H [(0, 10); (60, 20); (120, 30)]); [vm_compute; reflexivity|].
    repeat constructor.
Defined.

Lemma first_sample_average (s : Core) (pid : Z) (cpu : Q) (c : Clock) :
  process_cpu_history s !! pid = None ->
  average_time c - history_window s <= record_time c ->
  average_after pid cpu c s == cpu.
Proof.
  intros Hnone Hw. unfold average_after, _calculate_average_cpu,
    _update_process_cpu_history. simpl.
  rewrite lookup_insert_eq, Hnone. simpl.
  replace (recent _ _) with true.
  - unfold sum, len. simpl. field.
  - symmetry. unfold recent, Qge_bool. by apply Qle_bool_iff.
Qed.

Lemma Qgt_bool_true (a b : Q) : Qgt_bool a b = true <-> b < a.
Proof.
  unfold Qgt_bool. rewrite negb_true_iff. split.
  - intros H. apply Qnot_le_lt. intros Hle. apply Qle_bool_iff in Hle. congruence.
  - intros H. apply not_true_is_false. rewrite Qle_bool_iff. by apply Qlt_not_le.
Qed.

Lemma Qgt_bool_false (a b : Q) : Qgt_bool a b = false <-> a <= b.
Proof.
  unfold Qgt_bool. rewrite negb_false_iff. apply Qle_bool_iff.
Qed.

(** X: the cache sweep. *)
(** X5.  [_cleanup_process_cache] does nothing until more than 30 seconds
    have passed since the last sweep.  When it runs, it records the time and
    keeps exactly the entries of age at most [cache_ttl]; it never adds or
    alters an entry, and leaves the instances, the published list and the
    sample histories alone. *)
Theorem X5_cache_sweep (s : Core) (t : Q) (pid : Z) :
  let s' := _cleanup_process_cache t s in
  (t - last_cache_cleanup s <= 30 -> s' = s) /\
  (30 < t - last_cache_cleanup s ->
   last_cache_cleanup s' = t /\
   forall e : CacheEntry,
     process_cache s' !! pid = Some e <->
     process_cache s !! pid = Some e /\ t - timestamp e <= cache_ttl s) /\
  (forall e : CacheEntry,
     process_cache s' !! pid = Some e -> process_cache s !! pid = Some e) /\
  objects s' = objects s /\ process_data s' = process_data s /\
  process_cpu_history s' = process_cpu_history s.
Proof.
  intros s'. unfold s', _cleanup_process_cache.
  split; [|split; [|split]].
  - intros H. apply Qgt_bool_false in H. by rewrite H.
  - intros H. apply Qgt_bool_true in H. rewrite H. simpl. split; [done|].
    intros e. rewrite map_lookup_filter_Some. simpl.
    by rewrite Qgt_bool_false.
  - intros e. destruct (Qgt_bool _ 30); [|done]. simpl.
    rewrite map_lookup_filter_Some. by intros [? _].
  - by destruct (Qgt_bool _ 30).
Qed.

Lemma X5_cache_sweep_witness :
  10 - last_cache_cleanup cached_at_0 <= 30 /\
  _cleanup_process_cache 10 cached_at_0 = cached_at_0 /\
  30 < 40 - last_cache_cleanup cached_at_0 /\
  last_cache_cleanup (_cleanup_process_cache 40 cached_at_0) = 40.
Proof.
  split; [discriminate|]. split; [|split; [reflexivity|]].
  - destruct (X5_cache_sweep cached_at_0 10 7) as (H & _).
    apply H. discriminate.
  - destruct (X5_cache_sweep cached_at_0 40 7) as (_ & H & _).
    destruct H as (H & _); [reflexivity|]. exact H.
Defined.

(** X6.  A sweep never turns a cache hit into a miss: an entry that is
    younger than [cache_ttl] at a query survives any sweep made no later than
    the query, and the query still returns the cached instance. *)
Theorem X6_sweep_keeps_fresh_entries
    (s : Core) (t : Q) (p : psutil.Process) (c : Clock) (e : CacheEntry)
    (cpu mem : Q) :
  process_cache s !! psutil.pid p = Some e ->
  t <= current_time c ->
  current_time c - timestamp e < cache_ttl s ->
  psutil.refresh_cpu_percent p = psutil.Ok cpu ->
  psutil.refresh_memory_percent p = psutil.Ok mem ->
  process_cache (_cleanup_process_cache t s) !! psutil.pid p = Some e /\
  (_get_process_info p c (_cleanup_process_cache t s)).1 = Some (info e).
Proof.
  intros He Ht Hage Hcpu Hmem.
  assert (Hkeep : process_cache (_cleanup_process_cache t s) !! psutil.pid p
                  = Some e).
  { unfold _cleanup_process_cache. destruct (Qgt_bool _ 30); [|done]. simpl.
    apply map_lookup_filter_Some. split; [done|]. simpl.
    apply Qgt_bool_false. apply Qlt_le_weak.
    apply Qle_lt_trans with (current_time c - timestamp e); [|done].
    apply Qplus_le_compat; [done | apply Qle_refl]. }
  split; [done|].
  assert (Httl : cache_ttl (_cleanup_process_cache t s) = cache_ttl s).
  { unfold _cleanup_process_cache. by destruct (Qgt_bool _ 30). }
  rewrite (get_process_info_fresh _ p c e Hkeep) by (by rewrite Httl).
  destruct (refresh_cached_ok (_cleanup_process_cache t s) p c e cpu mem Hcpu Hmem)
    as (s1 & -> & _). done.
Qed.

(** A sweep at t = 40, more than 30 seconds after the last one, evicts the
    entry of process 7 (age 40) and keeps that of process 8 (age 2); process
    8 is queried at t = 41. *)
Lemma X6_sweep_keeps_fresh_entries_witness :
  let e := {| info := 1%nat; timestamp := 38 |} in
  let swept := _cleanup_process_cache 40 cached_at_0_and_38 in
  process_cache cached_at_0_and_38 !! 7%Z = Some {| info := 0%nat; timestamp := 0 |} /\
  process_cache cached_at_0_and_38 !! 8%Z = Some e /\
  30 < 40 - last_cache_cleanup cached_at_0_and_38 /\
  last_cache_cleanup swept = 40 /\
  process_cache swept !! 7%Z = None /\
  process_cache swept !! 8%Z = Some e /\
  (_get_process_info (live_process 8 20) (at_time 41) swept).1 = Some 1%nat.
Proof.
  intros e swept.
  assert (He : process_cache cached_at_0_and_38 !! psutil.pid (live_process 8 20)
               = Some e) by (vm_compute; reflexivity).
  split; [vm_compute; reflexivity|]. split; [exact He|].
  split; [reflexivity|]. split; [reflexivity|].
  split; [vm_compute; reflexivity|].
  destruct (X6_sweep_keeps_fresh_entries cached_at_0_and_38 40
              (live_process 8 20) (at_time 41) e 20 1 He) as (Hkeep & H);
    [discriminate | reflexivity | reflexivity | reflexivity |].
  split; [exact Hkeep | exact H].
Defined.

(** X7.  [set_update_interval] never sets an interval below half a second:
    a request of at least 0.5 is taken as it is, a smaller one becomes 0.5. *)
Theorem X7_update_interval_floor (interval : Q) (s : Core) :
  let s' := set_update_interval interval s in
  1 # 2 <= update_interval s' /\
  (1 # 2 <= interval -> update_interval s' == interval) /\
  (interval <= 1 # 2 -> update_interval s' = 1 # 2).
Proof.
  unfold set_update_interval. simpl.
  destruct (Qgt_bool interval (1 # 2)) eqn:E.
  - apply Qgt_bool_true in E. split; [by apply Qlt_le_weak|]. split; [done|].
    intros H. by apply Qlt_not_le in E.
  - apply Qgt_bool_false in E. split; [done|]. split; [|done].
    intros H. by apply Qle_antisym.
Qed.

Lemma X7_update_interval_floor_witness :
  let s := __init__ 70 2 4%Z 0 in
  1 # 2 <= 3 /\ update_interval (set_update_interval 3 s) == 3 /\
  1 # 4 <= 1 # 2 /\ update_interval (set_update_interval (1 # 4) s) = 1 # 2.
Proof.
  intros s. split; [discriminate|]. split; [|split; [discriminate|]].
  - destruct (X7_update_interval_floor 3 s) as (_ & H & _).
    apply H. discriminate.
  - destruct (X7_update_interval_floor (1 # 4) s) as (_ & _ & H).
    apply H. discriminate.
Defined.

Lemma running_apply_event (e : Event) (st : Core * Q) :
  running st.1 = false ->
  let st' := apply_event e st in
  running st'.1 = false /\
  process_data st'.1 = process_data st.1 /\
  history_data st'.1 = history_data st.1 /\
  system_data st'.1 = system_data st.1 /\
  update_queue st'.1 = update_queue st.1 /\
  process_cpu_history st'.1 = process_cpu_history st.1 /\
  objects st'.1 = objects st.1.
Proof.
  intros Hr. destruct e as [tick| |pid os win32|v|v|]; simpl; try done.
  - by rewrite Hr.
  - unfold kill_process. by repeat case_match.
Qed.

(** Nothing that an iteration runs reads or assigns [running]. *)
Lemma update_system_stats_running
    (b : bool) (r : option psutil.SystemSample) (s : Core) :
  _update_system_stats r (set_running b s) = set_running b (_update_system_stats r s).
Proof.
  destruct r as [r|]; [|done]. unfold _update_system_stats. simpl.
  by destruct (_ <? _)%nat.
Qed.

Lemma cleanup_process_cache_running (b : bool) (t : Q) (s : Core) :
  _cleanup_process_cache t (set_running b s)
  = set_running b (_cleanup_process_cache t s).
Proof. unfold _cleanup_process_cache. simpl. by destruct (Qgt_bool _ 30). Qed.

Lemma cleanup_process_history_running (b : bool) (t : Q) (s : Core) :
  _cleanup_process_history t (set_running b s)
  = set_running b (_cleanup_process_history t s).
Proof. done. Qed.

Lemma get_process_info_running
    (b : bool) (p : psutil.Process) (c : Clock) (s : Core) :
  _get_process_info p c (set_running b s)
  = ((_get_process_info p c s).1, set_running b (_get_process_info p c s).2).
Proof.
  unfold _get_process_info, refresh_cached, read_process, read_fields,
    mbind, result_bind, new_object. simpl.
  destruct (process_cache s !! psutil.pid p) as [e|]; simpl;
    [destruct (Qlt_bool _ _); simpl;
     [destruct (psutil.refresh_cpu_percent p); simpl;
      [destruct (psutil.refresh_memory_percent p); simpl|..]|]|];
    try reflexivity;
    (destruct (psutil.name p); simpl;
     [destruct (psutil.cpu_percent p); simpl;
      [destruct (psutil.memory_percent p); simpl|..]|..];
     try reflexivity; try (destruct (psutil.name_denied p); reflexivity)).
Qed.

Lemma collect_running (b : bool) (scans : list Scan) (acc : list loc) (s : Core) :
  collect scans acc (set_running b s)
  = ((collect scans acc s).1, set_running b (collect scans acc s).2).
Proof.
  revert acc s. induction scans as [|x scans IH]; intros acc s; simpl; [done|].
  rewrite get_process_info_running.
  destruct (_get_process_info (process x) (clock x) s) as [r s']. simpl.
  apply IH.
Qed.

Lemma full_update_running (b : bool) (tick : Tick) (s : Core) :
  full_update tick (set_running b s) = set_running b (full_update tick s).
Proof.
  rewrite !full_update_gathered.
  assert (Hg : gathered tick (set_running b s)
               = ((gathered tick s).1, set_running b (gathered tick s).2)).
  { unfold gathered, primary.
    change (set_update_event false (set_running b s))
      with (set_running b (set_update_event false s)).
    destruct (process_iter tick) as [it|].
    - rewrite collect_running.
      destruct (collect (ranked it) [] (set_update_event false s)) as [ps s1].
      simpl. destruct ps; [|done]. destruct (pids tick); [|done].
      apply collect_running.
    - destruct (pids tick); [|done]. apply collect_running. }
  rewrite Hg. done.
Qed.

Lemma monitor_loop_body_running (b : bool) (tick : Tick) (s : Core) (last : Q) :
  _monitor_loop_body tick (set_running b s, last)
  = (set_running b (_monitor_loop_body tick (s, last)).1,
     (_monitor_loop_body tick (s, last)).2).
Proof.
  unfold _monitor_loop_body.
  rewrite update_system_stats_running, cleanup_process_cache_running,
    cleanup_process_history_running.
  change (update_event (set_running b ?x)) with (update_event x).
  destruct (_ || _); [|done]. by rewrite full_update_running.
Qed.

Lemma monitor_loop_stopped (ticks : list Tick) (st : Core * Q) :
  running st.1 = false -> _monitor_loop ticks st = st.
Proof. intros Hr. destruct ticks as [|tick ticks]; simpl; [done|]. by rewrite Hr. Qed.

(** X8.  [shutdown] clears [running], and the flag is read by the test of
    [while self.running] only.  Once it is cleared no iteration starts:
    under any later schedule of loop tests and control operations the flag
    stays cleared and the published list, the history, the system
    statistics, the notification queue, the sample histories and the
    instances stay as they were.  An iteration that is under way when
    [shutdown] is called is not interrupted: a process read, the scan and
    the whole body do after [shutdown] what they do without it, so that
    iteration still completes and publishes; an iteration that scans
    processes 1 and 2 after the flag was cleared publishes both. *)
Theorem X8_shutdown_stops_the_loop
    (s : Core) (last : Q) (tick : Tick) (ticks : list Tick)
    (events : list Event)
    (p : psutil.Process) (c : Clock) (scans : list Scan) (acc : list loc) :
  let st := run events (shutdown s, last) in
  let body := _monitor_loop_body tick (s, last) in
  let late := _monitor_loop_body first_scan (shutdown (__init__ 70 2 4%Z 0), 0) in
  _monitor_loop ticks (shutdown s, last) = (shutdown s, last) /\
  (running st.1 = false /\
   process_data st.1 = process_data s /\
   history_data st.1 = history_data s /\
   system_data st.1 = system_data s /\
   update_queue st.1 = update_queue s /\
   process_cpu_history st.1 = process_cpu_history s /\
   objects st.1 = objects s) /\
  _get_process_info p c (shutdown s)
  = ((_get_process_info p c s).1, shutdown (_get_process_info p c s).2) /\
  collect scans acc (shutdown s)
  = ((collect scans acc s).1, shutdown (collect scans acc s).2) /\
  _monitor_loop_body tick (shutdown s, last) = (shutdown body.1, body.2) /\
  (running late.1 = false /\ listed_pids late.1 = [1; 2]%Z /\
   update_queue late.1 = [true]).
Proof.
  intros st body late.
  split; [by apply monitor_loop_stopped|]. split.
  { assert (H : forall st0 : Core * Q,
              running st0.1 = false ->
              let st := run events st0 in
              running st.1 = false /\
              process_data st.1 = process_data st0.1 /\
              history_data st.1 = history_data st0.1 /\
              system_data st.1 = system_data st0.1 /\
              update_queue st.1 = update_queue st0.1 /\
              process_cpu_history st.1 = process_cpu_history st0.1 /\
              objects st.1 = objects st0.1).
    { clear. induction events as [|e events IH]; intros st0 Hr; simpl; [done|].
      destruct (running_apply_event e st0 Hr)
        as (H1 & H2 & H3 & H4 & H5 & H6 & H7).
      destruct (IH (apply_event e st0) H1)
        as (G1 & G2 & G3 & G4 & G5 & G6 & G7).
      repeat split; congruence. }
    apply (H (shutdown s, last)). done. }
  split; [apply get_process_info_running|].
  split; [apply collect_running|].
  split; [apply monitor_loop_body_running|].
  split; [vm_compute; reflexivity|].
  split; vm_compute; reflexivity.
Qed.

(** X9.  A loop iteration performs a full update exactly when an update was
    requested or at least 5 seconds have passed since the last one; it then
    queues one notification and restarts the 5-second timer.  Otherwise it
    only samples and sweeps: no notification, same published list, same
    timer. *)
Theorem X9_full_update_schedule (tick : Tick) (s : Core) (last : Q) :
  let due := update_event s = true \/ 5 <= tick_time tick - last in
  let st := _monitor_loop_body tick (s, last) in
  (due -> st = (full_update tick (sweep tick s), tick_time tick)) /\
  (~ due -> st = (sweep tick s, last)) /\
  (due <-> update_queue st.1 = update_queue s ++ [true]) /\
  (~ due <-> update_queue st.1 = update_queue s) /\
  (~ due -> process_data st.1 = process_data s).
Proof.
  intros due st.
  destruct (sweep_frame tick s) as (_ & Hq & Hp & _).
  assert (Hdue : due -> st = (full_update tick (sweep tick s), tick_time tick)).
  { intros [He|Ht]; apply monitor_loop_body_full.
    - by rewrite He.
    - apply orb_true_iff. right. unfold Qge_bool. by apply Qle_bool_iff. }
  assert (Hidle : ~ due -> st = (sweep tick s, last)).
  { intros Hn. apply monitor_loop_body_idle.
    - destruct (update_event s); [|done]. destruct Hn. by left.
    - apply Qnot_le_lt. intros H. apply Hn. by right. }
  assert (Hdec : due \/ ~ due).
  { unfold due. destruct (update_event s); [by left; left|].
    destruct (Qlt_le_dec (tick_time tick - last) 5) as [H|H].
    - right. intros [?|H']; [done|]. by apply Qlt_not_le in H.
    - left. by right. }
  assert (Hne : update_queue s ++ [true] <> update_queue s).
  { intros E. apply (f_equal length) in E. rewrite length_app in E.
    cbn in E. lia. }
  split; [done|]. split; [done|]. split; [|split].
  - split.
    + intros H. rewrite (Hdue H). cbn [fst].
      destruct (full_update_frame tick (sweep tick s)) as (_ & _ & _ & _ & _ & ->).
      by rewrite Hq.
    + intros H. destruct Hdec as [?|Hn]; [done|].
      rewrite (Hidle Hn) in H. cbn [fst] in H. rewrite Hq in H. by destruct Hne.
  - split.
    + intros H. rewrite (Hidle H). cbn [fst]. done.
    + intros H Hd. rewrite (Hdue Hd) in H. cbn [fst] in H.
      destruct (full_update_frame tick (sweep tick s)) as (_ & _ & _ & _ & _ & E).
      rewrite E, Hq in H. by destruct Hne.
  - intros H. rewrite (Hidle H). cbn [fst]. done.
Qed.

Lemma X9_full_update_schedule_witness :
  let s := __init__ 70 2 4%Z 0 in
  5 <= tick_time (sample_tick 3) - 0 /\
  _monitor_loop_body (sample_tick 3) (s, 0)
  = (full_update (sample_tick 3) (sweep (sample_tick 3) s), 6) /\
  ~ (update_event s = true \/ 5 <= tick_time (sample_tick 4) - 6) /\
  _monitor_loop_body (sample_tick 4) (s, 6) = (sweep (sample_tick 4) s, 6).
Proof.
  intros s.
  assert (Hn : ~ (update_event s = true \/ 5 <= tick_time (sample_tick 4) - 6)).
  { intros [H|H]; [discriminate|]. by apply H. }
  split; [discriminate|]. split; [|split; [exact Hn|]].
  - destruct (X9_full_update_schedule (sample_tick 3) s 0) as (H & _).
    apply H. right. discriminate.
  - destruct (X9_full_update_schedule (sample_tick 4) s 6) as (_ & H & _).
    apply H, Hn.
Defined.

(** X10.  In every [ProcessInfo] returned by [_get_process_info], the status
    is consistent with the instance's own CPU percent and the threshold in
    force at the call ("HIGH" when the CPU percent exceeds it, otherwise
    "Normal"), unless it is the placeholder of a denied read, whose status is
    "N/A" and whose CPU percent, memory percent and average are 0. *)
Theorem X10_status_of_returned_instance
    (p : psutil.Process) (c : Clock) (s : Core) (l : loc) (i : ProcessInfo.t) :
  (_get_process_info p c s).1 = Some l ->
  objects (_get_process_info p c s).2 !! l = Some i ->
  ProcessInfo.status i = status_of_cpu (threshold s) i \/
  (ProcessInfo.status i = "N/A"%string /\ ProcessInfo.cpu_percent i = 0 /\
   ProcessInfo.memory_percent i = 0 /\ ProcessInfo.avg_cpu_percent i = 0).
Proof.
  destruct (get_process_info_cases p c s)
    as [(e & cpu & mem & s' & He & Hage & Hcpu & Hmem & Hr & ->)
       |(s0 & -> & Hth & _)].
  - simpl. intros ? Hi. simplify_eq.
    destruct (refresh_cached_ok s p c e cpu mem Hcpu Hmem) as (s1 & Hr1 & _ & Ho & _).
    rewrite Hr in Hr1. simplify_eq. rewrite Ho in Hi.
    destruct (objects s !! info e) as [i0|]; simpl in Hi; simplify_eq.
    by left.
  - rewrite <- Hth.
    unfold read_process, read_fields, mbind, result_bind, new_object.
    destruct (psutil.name p) as [name| | |];
      [destruct (psutil.cpu_percent p) as [cpu| | |];
       [destruct (psutil.memory_percent p) as [mem| | |]|..]|..];
      simpl; try destruct (psutil.name_denied p); simpl; try done;
      intros Hl Hi; simplify_eq; rewrite lookup_insert_eq in Hi; simplify_eq;
      first [by left | by right].
Qed.

Lemma X10_status_of_returned_instance_witness :
  let s := __init__ 70 2 4%Z 0 in
  let r := _get_process_info (live_process 7 90) (at_time 1) s in
  exists i : ProcessInfo.t,
    r.1 = Some 0%nat /\ objects r.2 !! 0%nat = Some i /\
    (ProcessInfo.status i = status_of_cpu (threshold s) i \/
     (ProcessInfo.status i = "N/A"%string /\ ProcessInfo.cpu_percent i = 0 /\
      ProcessInfo.memory_percent i = 0 /\ ProcessInfo.avg_cpu_percent i = 0)).
Proof.
  intros s r. eexists. split; [reflexivity|].
  split; [vm_compute; reflexivity|].
  apply (X10_status_of_returned_instance (live_process 7 90) (at_time 1) s 0%nat);
    [reflexivity | vm_compute; reflexivity].
Defined.

(** X11.  Whenever [_get_process_info] returns an instance, the cache entry
    of the process's PID holds that very instance afterwards, stamped either
    with the time of this call or, on a cache hit, with the time of the
    earlier read, less than [cache_ttl] ago. *)
Theorem X11_returned_instance_is_cached
    (p : psutil.Process) (c : Clock) (s : Core) (l : loc) :
  (_get_process_info p c s).1 = Some l ->
  exists e : CacheEntry,
    process_cache (_get_process_info p c s).2 !! psutil.pid p = Some e /\
    info e = l /\
    (timestamp e = current_time c \/
     (process_cache s !! psutil.pid p = Some e /\
      current_time c - timestamp e < cache_ttl s)).
Proof.
  destruct (get_process_info_cases p c s)
    as [(e & cpu & mem & s' & He & Hage & Hcpu & Hmem & Hr & ->)
       |(s0 & -> & _)].
  - simpl. intros ?; simplify_eq.
    destruct (refresh_cached_ok s p c e cpu mem Hcpu Hmem) as (s1 & Hr1 & Hc & _).
    rewrite Hr in Hr1. simplify_eq. exists e. rewrite Hc. eauto.
  - destruct (read_process_shape p c s0) as [(l' & i & Hl & _ & Hc)|(Hl & _)].
    + intros ?. rewrite Hl in *. simplify_eq. eexists.
      rewrite Hc, lookup_insert_eq. eauto.
    + intros ?. congruence.
Qed.

Lemma X11_returned_instance_is_cached_witness :
  let r := _get_process_info (live_process 7 90) (at_time 1)
             (__init__ 70 2 4%Z 0) in
  r.1 = Some 0%nat /\
  exists e : CacheEntry,
    process_cache r.2 !! 7%Z = Some e /\ info e = 0%nat.
Proof.
  intros r. split; [reflexivity|].
  destruct (X11_returned_instance_is_cached (live_process 7 90) (at_time 1)
              (__init__ 70 2 4%Z 0) 0%nat) as (e & He & Hi & _);
    [reflexivity|].
  exists e. split; [exact He | exact Hi].
Defined.

(** X12.  One call of [_get_process_info] touches the sample history of no
    other PID; for the PID of the process it either leaves the history as it
    is or appends one sample, the CPU percent just read, stamped with the
    recording time; and a call that returns nothing records nothing. *)
Theorem X12_samples_recorded (p : psutil.Process) (c : Clock) (s : Core) :
  let r := _get_process_info p c s in
  let before_ := default [] (process_cpu_history s !! psutil.pid p) in
  (forall pid : Z, pid <> psutil.pid p ->
     process_cpu_history r.2 !! pid = process_cpu_history s !! pid) /\
  (process_cpu_history r.2 = process_cpu_history s \/
   exists cpu : Q,
     (psutil.refresh_cpu_percent p = psutil.Ok cpu \/
      psutil.cpu_percent p = psutil.Ok cpu) /\
     process_cpu_history r.2 !! psutil.pid p
     = Some (before_ ++ [(record_time c, cpu)])) /\
  (r.1 = None -> process_cpu_history r.2 = process_cpu_history s).
Proof.
  intros r before_. unfold r, before_.
  destruct (get_process_info_cases p c s)
    as [(e & cpu & mem & s' & He & Hage & Hcpu & Hmem & Hr & ->)
       |(s0 & -> & _ & Hh & _)].
  - unfold refresh_cached in Hr. rewrite Hcpu, Hmem in Hr. simplify_eq. simpl.
    split; [|split; [|done]].
    + intros pid Hpid. by rewrite lookup_insert_ne.
    + right. exists cpu. split; [by left|]. by rewrite lookup_insert_eq.
  - rewrite <- Hh.
    unfold read_process, read_fields, mbind, result_bind, new_object,
      _update_process_cpu_history.
    destruct (psutil.name p) as [name| | |];
      [destruct (psutil.cpu_percent p) as [cpu| | |];
       [destruct (psutil.memory_percent p) as [mem| | |]|..]|..];
      simpl; try destruct (psutil.name_denied p); simpl;
      try (split; [done|split; [by left|done]]).
    all: split; [|split; [|done]].
    all: try (intros pid Hpid; by rewrite lookup_insert_ne).
    all: right; exists cpu; split; [by right|]; by rewrite lookup_insert_eq.
Qed.

Lemma X12_samples_recorded_witness :
  let s := with_samples 5 [(0, 10)] in
  let r := _get_process_info (exited_process 7) (at_time 1) s in
  5%Z <> psutil.pid (exited_process 7) /\
  process_cpu_history r.2 !! 5%Z = process_cpu_history s !! 5%Z /\
  r.1 = None /\
  process_cpu_history r.2 = process_cpu_history s.
Proof.
  intros s r.
  destruct (X12_samples_recorded (exited_process 7) (at_time 1) s)
    as (Hother & _ & Hnone).
  split; [discriminate|]. split; [apply Hother; discriminate|].
  split; [reflexivity|]. apply Hnone. reflexivity.
Defined.

(** X13.  After a [kill_process] that returned true, the next query for that
    PID is a full read: no cache entry stands in for the killed process. *)
Theorem X13_kill_then_query
    (pid : Z) (os : psutil.Termination) (win32 : bool) (s : Core)
    (p : psutil.Process) (c : Clock) :
  psutil.pid p = pid ->
  (kill_process pid os win32 s).1 = true ->
  let s' := (kill_process pid os win32 s).2 in
  _get_process_info p c s' = read_process p c s'.
Proof.
  intros Hpid Hr s'.
  assert (Hc : process_cache s' !! psutil.pid p = None).
  { unfold s'. rewrite Hpid. unfold kill_process in *.
    repeat case_match; simplify_eq; simpl in *; try done;
      apply lookup_delete_eq. }
  unfold _get_process_info. by rewrite Hc.
Qed.

Lemma X13_kill_then_query_witness :
  let os := {| psutil.terminate := psutil.Ok ();
               psutil.taskkill_raises := false |} in
  let s' := (kill_process 7 os false cached_at_0).2 in
  (kill_process 7 os false cached_at_0).1 = true /\
  _get_process_info (live_process 7 20) (at_time 1) s'
  = read_process (live_process 7 20) (at_time 1) s'.
Proof.
  intros os s'. split; [reflexivity|].
  apply (X13_kill_then_query 7 os false cached_at_0 (live_process 7 20)
           (at_time 1)); reflexivity.
Defined.

(** X14.  The fallback enumeration [psutil.pids()] matters only when the
    primary scan produced no entry: when it produced one, the full update is
    the same whatever [psutil.pids()] would answer. *)
Theorem X14_fallback_only_when_empty
    (tick : Tick) (alt : option (list (option Scan))) (s : Core) :
  (primary tick s).1 <> [] ->
  full_update (with_pids alt tick) s = full_update tick s.
Proof.
  intros Hne. rewrite !full_update_primary.
  change (primary (with_pids alt tick) s) with (primary tick s).
  destruct (primary tick s) as [processes s1]. simpl in Hne.
  by destruct processes.
Qed.

Lemma X14_fallback_only_when_empty_witness :
  let s := __init__ 70 2 4%Z 0 in
  let tick := scan_tick 10 [live_process 1 50] in
  (primary tick s).1 <> [] /\
  full_update (with_pids None tick) s = full_update tick s.
Proof.
  intros s tick.
  assert (Hne : (primary tick s).1 <> []) by (vm_compute; discriminate).
  split; [exact Hne|].
  apply (X14_fallback_only_when_empty tick None s Hne).
Defined.

Lemma collect_length (scans : list Scan) (acc : list loc) (s : Core) :
  (length (collect scans acc s).1 <= length acc + length scans)%nat.
Proof.
  revert acc s. induction scans as [|x scans IH]; intros acc s; simpl; [lia|].
  destruct (_get_process_info (process x) (clock x) s) as [[l|] s']; simpl.
  - pose proof (IH (acc ++ [l]) s') as H. rewrite length_app in H.
    simpl in H. lia.
  - pose proof (IH acc s') as H. lia.
Qed.

Lemma length_omap_le {A B : Type} (f : A -> option B) (l : list A) :
  (length (omap f l) <= length l)%nat.
Proof.
  induction l as [|x l IH]; csimpl; [lia|]. destruct (f x); csimpl; lia.
Qed.

Lemma sort_desc_length {A : Type} (key : A -> Q) (l : list A) :
  length (sort_desc key l) = length l.
Proof. apply Permutation_length, sort_desc_Permutation. Qed.

Lemma length_published
    (q : list bool) (key : loc -> Q) (processes : list loc) (s : Core) :
  length (process_data
            (set_update_queue q (set_process_data (sort_desc key processes) s)))
  = length processes.
Proof.
  cbn [process_data set_update_queue set_process_data].
  apply sort_desc_length.
Qed.

Lemma collect_fallback_length (ps : list (option Scan)) (s : Core) :
  (length (collect (omap id (take 100 ps)) [] s).1 <= 100)%nat.
Proof.
  etrans; [apply collect_length|]. cbn [length].
  etrans; [apply length_omap_le|]. rewrite length_take. lia.
Qed.

Lemma collect_ranked_length (it : list Scan) (s : Core) :
  (length (collect (ranked it) [] s).1 <= 100)%nat.
Proof.
  etrans; [apply collect_length|]. cbn [length].
  unfold ranked. rewrite length_take. lia.
Qed.

(** X15.  A full update publishes at most 100 processes, whether they come
    from the primary scan or from the fallback. *)
Theorem X15_at_most_100_published (tick : Tick) (s : Core) :
  (length (get_process_list (full_update tick s)) <= 100)%nat.
Proof.
  rewrite full_update_primary. unfold primary, get_process_list.
  destruct (process_iter tick) as [it|].
  - pose proof (collect_ranked_length it (set_update_event false s)) as H1.
    destruct (collect (ranked it) [] (set_update_event false s))
      as [processes s1].
    destruct processes as [|l0 processes].
    + destruct (pids tick) as [ps|].
      * pose proof (collect_fallback_length ps s1) as H2.
        destruct (collect (omap id (take 100 ps)) [] s1) as [processes' s2].
        by rewrite length_published.
      * rewrite length_published. cbn. lia.
    + by rewrite length_published.
  - destruct (pids tick) as [ps|].
    + pose proof (collect_fallback_length ps (set_update_event false s)) as H2.
      destruct (collect (omap id (take 100 ps)) [] (set_update_event false s))
        as [processes' s2].
      by rewrite length_published.
    + rewrite length_published. cbn. lia.
Qed.

Lemma pid_of_refresh_cached
    (p : psutil.Process) (c : Clock) (e : CacheEntry) (s : Core) :
  match refresh_cached p c e s with
  | inl (l, s') =>
      l = info e /\ process_cache s' = process_cache s /\
      (forall l' : loc, pid_of s' l' = pid_of s l')
  | inr s' =>
      process_cache s' = delete (psutil.pid p) (process_cache s) /\
      (forall l' : loc, pid_of s' l' = pid_of s l')
  end.
Proof.
  assert (Halt : forall (f : ProcessInfo.t -> ProcessInfo.t) (k l' : loc)
                        (m : gmap nat ProcessInfo.t),
            (forall i, ProcessInfo.pid (f i) = ProcessInfo.pid i) ->
            ProcessInfo.pid <$> alter f k m !! l' = ProcessInfo.pid <$> m !! l').
  { intros f k l' m Hf. destruct (decide (k = l')) as [->|Hne].
    - rewrite lookup_alter_eq. destruct (m !! l'); simpl; [|done].
      by rewrite Hf.
    - by rewrite lookup_alter_ne. }
  unfold refresh_cached, assign, pid_of.
  destruct (psutil.refresh_cpu_percent p);
    [destruct (psutil.refresh_memory_percent p)|..]; simpl;
    (split; [|try split]); try done; try intros l';
    by rewrite ?Halt.
Qed.

Lemma read_process_pids (p : psutil.Process) (c : Clock) (s : Core) :
  let r := read_process p c s in
  (exists (l : loc) (i : ProcessInfo.t),
     r.1 = Some l /\
     objects s !! l = None /\
     ProcessInfo.pid i = psutil.pid p /\
     objects r.2 = <[l := i]> (objects s) /\
     process_cache r.2 =
       <[psutil.pid p := {| info := l; timestamp := current_time c |}]>
         (process_cache s)) \/
  (r.1 = None /\ objects r.2 = objects s /\
   (process_cache r.2 = process_cache s \/
    process_cache r.2 = delete (psutil.pid p) (process_cache s))).
Proof.
  assert (Hfresh : objects s !! fresh (dom (objects s)) = None).
  { apply not_elem_of_dom, is_fresh. }
  unfold read_process, read_fields, mbind, result_bind, new_object.
  destruct (psutil.name p) as [name| | |];
    [destruct (psutil.cpu_percent p) as [cpu| | |];
     [destruct (psutil.memory_percent p) as [mem| | |]|..]|..];
    simpl; try destruct (psutil.name_denied p); simpl; eauto 10;
    left; eexists _, _; repeat split; eauto.
Qed.

Lemma get_process_info_pids (p : psutil.Process) (c : Clock) (s : Core) :
  cache_pids_ok s ->
  let r := _get_process_info p c s in
  cache_pids_ok r.2 /\ pids_stable s r.2 /\
  (forall l : loc, r.1 = Some l -> pid_of r.2 l = Some (psutil.pid p)).
Proof.
  intros Hok r.
  assert (Hfull : forall s0 : Core,
            (forall l, pid_of s0 l = pid_of s l) ->
            (forall pid e, process_cache s0 !! pid = Some e ->
                           pid_of s (info e) = Some pid) ->
            let r0 := read_process p c s0 in
            cache_pids_ok r0.2 /\ pids_stable s r0.2 /\
            (forall l, r0.1 = Some l -> pid_of r0.2 l = Some (psutil.pid p))).
  { intros s0 Hs0 Hc0 r0.
    destruct (read_process_pids p c s0)
      as [(l & i & Hl & Hnew & Hpid & Ho & Hca)|(Hl & Ho & Hca)];
      fold r0 in Hl, Ho, Hca.
    - assert (Hold : forall l' x, pid_of s l' = Some x -> pid_of r0.2 l' = Some x).
      { intros l' x Hx. rewrite <- Hs0 in Hx. unfold pid_of in *. rewrite Ho.
        destruct (decide (l = l')) as [->|Hne].
        - by rewrite Hnew in Hx.
        - by rewrite lookup_insert_ne. }
      assert (Hthis : pid_of r0.2 l = Some (psutil.pid p)).
      { unfold pid_of. rewrite Ho, lookup_insert_eq. simpl. by rewrite Hpid. }
      split; [|split].
      + intros pid e. rewrite Hca, lookup_insert_Some.
        intros [[<- <-]|[_ He]]; simpl; [done|]. apply Hold. eauto.
      + exact Hold.
      + intros l' ?. rewrite Hl in *. by simplify_eq.
    - assert (Hsame : forall l', pid_of r0.2 l' = pid_of s l').
      { intros l'. rewrite <- Hs0. unfold pid_of. by rewrite Ho. }
      split; [|split].
      + intros pid e He. rewrite Hsame. apply (Hc0 pid e).
        destruct Hca as [Hca|Hca]; rewrite Hca in He; [done|].
        by apply lookup_delete_Some in He as [_ He].
      + intros l' x. by rewrite Hsame.
      + intros l' ?. congruence. }
  unfold r, _get_process_info.
  destruct (process_cache s !! psutil.pid p) as [e|] eqn:He;
    [destruct (Qlt_bool _ _)|]; try (by apply Hfull).
  pose proof (pid_of_refresh_cached p c e s) as Hs.
  destruct (refresh_cached p c e s) as [[l s']|s'].
  - destruct Hs as (-> & Hca & Ha). simpl. split; [|split].
    + intros pid e'. rewrite Hca, Ha. apply Hok.
    + intros l' x. by rewrite Ha.
    + intros l' ?. simplify_eq. rewrite Ha. by apply Hok.
  - destruct Hs as (Hca & Ha). apply Hfull; [done|].
    intros pid e'. rewrite Hca, lookup_delete_Some. intros [_ He']. eauto.
Qed.

Lemma collect_pids (scans : list Scan) (acc : list loc) (xs : list Z) (s : Core) :
  cache_pids_ok s ->
  Forall2 (fun l x => pid_of s l = Some x) acc xs ->
  let r := collect scans acc s in
  cache_pids_ok r.2 /\ pids_stable s r.2 /\
  exists qs : list Z,
    sublist qs (map (fun x => psutil.pid (process x)) scans) /\
    Forall2 (fun l x => pid_of r.2 l = Some x) r.1 (xs ++ qs).
Proof.
  revert acc xs s.
  induction scans as [|x scans IH]; intros acc xs s Hok Hacc; simpl.
  - split; [done|]. split; [by intros l y|].
    exists []. split; [constructor|]. by rewrite app_nil_r.
  - destruct (get_process_info_pids (process x) (clock x) s Hok)
      as (Hok' & Hst & Hr).
    destruct (_get_process_info (process x) (clock x) s) as [r s'].
    simpl in *.
    assert (Hacc' : Forall2 (fun l y => pid_of s' l = Some y) acc xs).
    { eapply Forall2_impl; [exact Hacc|]. intros l y. apply Hst. }
    destruct r as [l|].
    + destruct (IH (acc ++ [l]) (xs ++ [psutil.pid (process x)]) s' Hok')
        as (H1 & H2 & qs & Hsub & Hall).
      { apply Forall2_app; [done|]. constructor; [by apply Hr|constructor]. }
      split; [done|]. split; [intros l' y Hy; by apply H2, Hst|].
      exists (psutil.pid (process x) :: qs). split; [by constructor|].
      by rewrite <- app_assoc in Hall.
    + destruct (IH acc xs s' Hok' Hacc') as (H1 & H2 & qs & Hsub & Hall).
      split; [done|]. split; [intros l' y Hy; by apply H2, Hst|].
      exists qs. split; [by constructor|done].
Qed.

Lemma listed_Forall2 (s : Core) (ls : list loc) (xs : list Z) :
  Forall2 (fun l x => pid_of s l = Some x) ls xs ->
  map ProcessInfo.pid (read_list s ls) = xs.
Proof.
  unfold read_list, pid_of.
  induction 1 as [|l x ls xs Hl Hall IH]; csimpl; [done|].
  destruct (objects s !! l) as [i|]; simpl in Hl; [|done].
  injection Hl as <-. simpl. by rewrite IH.
Qed.

Lemma listed_sort_desc (s : Core) (key : loc -> Q) (ls : list loc) :
  map ProcessInfo.pid (read_list s (sort_desc key ls))
  ≡ₚ map ProcessInfo.pid (read_list s ls).
Proof.
  unfold read_list.
  change (map ProcessInfo.pid) with (fmap (M:=list) ProcessInfo.pid).
  by rewrite sort_desc_Permutation.
Qed.

Lemma ranked_pids (it : list Scan) :
  map (fun x => psutil.pid (process x)) (ranked it)
  ⊆+ map (fun x => psutil.pid (process x)) it.
Proof.
  change (map (fun x => psutil.pid (process x)))
    with (fmap (M:=list) (fun x => psutil.pid (process x))).
  unfold ranked. etrans.
  - apply fmap_submseteq, sublist_submseteq, sublist_take.
  - apply fmap_submseteq, Permutation_submseteq, sort_desc_Permutation.
Qed.

Lemma fallback_pids_take (ps : list (option Scan)) :
  map (fun x => psutil.pid (process x)) (omap id (take 100 ps))
  ⊆+ map (fun x => psutil.pid (process x)) (omap id ps).
Proof.
  change (map (fun x => psutil.pid (process x)))
    with (fmap (M:=list) (fun x => psutil.pid (process x))).
  apply fmap_submseteq, sublist_submseteq.
  rewrite <- (take_drop 100 ps) at 2. rewrite omap_app.
  by apply sublist_inserts_r.
Qed.

Lemma full_update_pids (tick : Tick) (s : Core) :
  cache_pids_ok s ->
  let s' := full_update tick s in
  cache_pids_ok s' /\
  (listed_pids s' ⊆+ iter_pids tick \/ listed_pids s' ⊆+ fallback_pids tick).
Proof.
  intros Hok s'. unfold s'. rewrite full_update_primary.
  unfold primary, iter_pids, fallback_pids.
  assert (Hok0 : cache_pids_ok (set_update_event false s)) by done.
  assert (Hpub : forall (scans : list Scan) (s1 : Core),
            cache_pids_ok s1 ->
            let r := collect scans [] s1 in
            let s2 := set_update_queue (update_queue r.2 ++ [true])
                        (set_process_data (sort_desc (avg_key r.2) r.1) r.2) in
            cache_pids_ok s2 /\
            listed_pids s2 ⊆+ map (fun x => psutil.pid (process x)) scans).
  { intros scans s1 Hok1 r s2.
    destruct (collect_pids scans [] [] s1 Hok1) as (H1 & _ & qs & Hsub & Hall);
      [constructor|]. fold r in H1, Hall. simpl in Hall.
    split; [exact H1|].
    unfold listed_pids, get_process_list, s2.
    cbn [process_data set_update_queue set_process_data].
    change (read_list (set_update_queue _ (set_process_data _ r.2)))
      with (read_list r.2).
    rewrite listed_sort_desc, (listed_Forall2 _ _ _ Hall).
    by apply sublist_submseteq. }
  destruct (process_iter tick) as [it|]; simpl.
  - pose proof (Hpub (ranked it) _ Hok0) as Hp.
    destruct (collect_pids (ranked it) [] [] _ Hok0) as (Hok1 & _);
      [constructor|].
    destruct (collect (ranked it) [] (set_update_event false s))
      as [processes s1]. simpl in Hp, Hok1.
    destruct processes as [|l0 processes].
    + destruct (pids tick) as [ps|]; simpl.
      * pose proof (Hpub (omap id (take 100 ps)) _ Hok1) as Hf.
        destruct (collect (omap id (take 100 ps)) [] s1) as [processes' s2].
        simpl in Hf. destruct Hf as [Hf1 Hf2]. split; [done|]. right.
        etrans; [exact Hf2|]. apply fallback_pids_take.
      * split; [done|]. right. exact (submseteq_nil_l _).
    + destruct Hp as [Hp1 Hp2]. split; [done|]. left.
      etrans; [exact Hp2|]. apply ranked_pids.
  - destruct (pids tick) as [ps|]; simpl.
    + pose proof (Hpub (omap id (take 100 ps)) _ Hok0) as Hf.
      destruct (collect (omap id (take 100 ps)) [] (set_update_event false s))
        as [processes' s2].
      simpl in Hf. destruct Hf as [Hf1 Hf2]. split; [done|]. right.
      etrans; [exact Hf2|]. apply fallback_pids_take.
    + split; [done|]. left. exact (submseteq_nil_l _).
Qed.

Lemma cache_pids_ok_init (threshold interval : Q) (cpu_count : Z) (now : Q) :
  cache_pids_ok (__init__ threshold interval cpu_count now).
Proof. intros pid e He. simpl in He. by rewrite lookup_empty in He. Qed.

Lemma cache_pids_ok_sweep (tick : Tick) (s : Core) :
  cache_pids_ok s -> cache_pids_ok (sweep tick s).
Proof.
  intros Hok. unfold sweep, _cleanup_process_history.
  set (s1 := _update_system_stats (stats tick) s).
  assert (H1 : cache_pids_ok s1).
  { unfold s1. by destruct (stats tick). }
  unfold _cleanup_process_cache.
  destruct (Qgt_bool _ 30); [|done].
  intros pid e. simpl. rewrite map_lookup_filter_Some. intros [He _].
  by apply (H1 pid e).
Qed.

Lemma cache_pids_ok_apply_event (e : Event) (st : Core * Q) :
  cache_pids_ok st.1 -> cache_pids_ok (apply_event e st).1.
Proof.
  intros Hok. destruct e as [tick| |pid os win32|v|v|]; simpl; try done.
  - destruct (running st.1); [|done]. destruct st as [s l].
    unfold _monitor_loop_body. fold (sweep tick s).
    pose proof (cache_pids_ok_sweep tick s Hok) as Hs.
    destruct (_ || _); cbn [fst]; [|done].
    by apply full_update_pids.
  - unfold kill_process.
    assert (Hdel : cache_pids_ok (set_process_cache
                                    (delete pid (process_cache st.1)) st.1)).
    { intros pid' e. simpl. rewrite lookup_delete_Some. intros [_ He].
      by apply (Hok pid' e). }
    by repeat case_match.
Qed.

Lemma cache_pids_ok_run (events : list Event) (st : Core * Q) :
  cache_pids_ok st.1 -> cache_pids_ok (run events st).1.
Proof.
  revert st. induction events as [|e events IH]; intros st Hok; simpl; [done|].
  by apply IH, cache_pids_ok_apply_event.
Qed.

(** X16.  In every state the engine reaches, the PIDs of the list published
    by a full update are PIDs that this update enumerated, each at most as
    often as it was enumerated: a PID that neither enumeration of the update
    yields is not in the published list. *)
Theorem X16_published_pids_were_enumerated
    (threshold interval : Q) (cpu_count : Z) (now : Q) (events : list Event)
    (tick : Tick) (pid : Z) :
  let reached := (run events (__init__ threshold interval cpu_count now, 0)).1 in
  let s' := full_update tick (sweep tick reached) in
  (listed_pids s' ⊆+ iter_pids tick \/ listed_pids s' ⊆+ fallback_pids tick) /\
  (pid ∈ listed_pids s' -> pid ∈ iter_pids tick \/ pid ∈ fallback_pids tick).
Proof.
  intros reached s'.
  assert (Hok : cache_pids_ok (sweep tick reached)).
  { apply cache_pids_ok_sweep.
    apply (cache_pids_ok_run events (__init__ threshold interval cpu_count now, 0)).
    apply cache_pids_ok_init. }
  destruct (full_update_pids tick _ Hok) as [_ H]. fold s' in H.
  split; [exact H|]. intros Hin.
  destruct H as [H|H]; [left|right]; by eapply elem_of_submseteq.
Qed.

Lemma X16_published_pids_were_enumerated_witness :
  let s := __init__ 70 2 4%Z 0 in
  let tick := scan_tick 10 [live_process 1 50; live_process 2 10] in
  1%Z ∈ listed_pids (full_update tick (sweep tick s)) /\
  (1%Z ∈ iter_pids tick \/ 1%Z ∈ fallback_pids tick).
Proof.
  intros s tick.
  assert (Hin : 1%Z ∈ listed_pids (full_update tick (sweep tick s))).
  { replace (listed_pids (full_update tick (sweep tick s))) with [1%Z; 2%Z]
      by (vm_compute; reflexivity).
    constructor. }
  split; [exact Hin|].
  destruct (X16_published_pids_were_enumerated 70 2 4%Z 0 [] tick 1%Z)
    as (_ & H).
  apply H, Hin.
Defined.

(** X17.  In every state the engine reaches, if the enumerations of a full
    update yield no PID twice, the list it publishes holds at most one entry
    per PID. *)
Theorem X17_one_entry_per_pid
    (threshold interval : Q) (cpu_count : Z) (now : Q) (events : list Event)
    (tick : Tick) :
  NoDup (iter_pids tick) -> NoDup (fallback_pids tick) ->
  let reached := (run events (__init__ threshold interval cpu_count now, 0)).1 in
  NoDup (listed_pids (full_update tick (sweep tick reached))).
Proof.
  intros H1 H2 reached.
  assert (Hok : cache_pids_ok (sweep tick reached)).
  { apply cache_pids_ok_sweep.
    apply (cache_pids_ok_run events (__init__ threshold interval cpu_count now, 0)).
    apply cache_pids_ok_init. }
  destruct (full_update_pids tick _ Hok) as [_ [H|H]];
    apply submseteq_Permutation in H as [k Hk].
  - rewrite Hk in H1. by apply NoDup_app in H1 as [? _].
  - rewrite Hk in H2. by apply NoDup_app in H2 as [? _].
Qed.

Lemma X17_one_entry_per_pid_witness :
  let s := __init__ 70 2 4%Z 0 in
  let tick := scan_tick 10 [live_process 1 50; live_process 2 10] in
  NoDup (iter_pids tick) /\ NoDup (fallback_pids tick) /\
  NoDup (listed_pids (full_update tick (sweep tick s))).
Proof.
  intros s tick.
  assert (H1 : NoDup (iter_pids tick)).
  { replace (iter_pids tick) with [1%Z; 2%Z] by (vm_compute; reflexivity).
    apply NoDup_cons. split; [|apply NoDup_singleton].
    intros H. apply list_elem_of_singleton in H. discriminate. }
  assert (H2 : NoDup (fallback_pids tick)) by constructor.
  split; [exact H1|]. split; [exact H2|].
  apply (X17_one_entry_per_pid 70 2 4%Z 0 [] tick H1 H2).
Defined.

Lemma Qgt_bool_proper (a a' b : Q) : a == a' -> Qgt_bool a b = Qgt_bool a' b.
Proof. intros H. unfold Qgt_bool. by rewrite H. Qed.

(** X18.  On the first reading of a process (no cache entry, no history, the
    sample recorded inside the window) the rolling average equals the CPU
    percent just read, so the status the engine stores is the status the
    table of the UI derives from the average. *)
Theorem X18_first_reading_status_agrees_with_table
    (s : Core) (p : psutil.Process) (c : Clock) (name : string) (cpu mem : Q) :
  process_cache s !! psutil.pid p = None ->
  process_cpu_history s !! psutil.pid p = None ->
  average_time c - history_window s <= record_time c ->
  psutil.name p = psutil.Ok name ->
  psutil.cpu_percent p = psutil.Ok cpu ->
  psutil.memory_percent p = psutil.Ok mem ->
  exists (l : loc) (i : ProcessInfo.t),
    (_get_process_info p c s).1 = Some l /\
    objects (_get_process_info p c s).2 !! l = Some i /\
    ProcessInfo.cpu_percent i = cpu /\
    ProcessInfo.avg_cpu_percent i == cpu /\
    ProcessInfo.status i = cpu_monitor_ui.row_status i (threshold s).
Proof.
  intros Hcache Hhist Hw Hn Hc Hm.
  pose proof (first_sample_average s (psutil.pid p) cpu c Hhist Hw) as Havg.
  unfold _get_process_info. rewrite Hcache.
  unfold read_process, read_fields, mbind, result_bind, new_object.
  rewrite Hn, Hc, Hm. cbn [fst snd].
  eexists _, _. split; [reflexivity|].
  cbn [objects set_process_cache set_objects]. rewrite lookup_insert_eq.
  split; [reflexivity|]. cbn [ProcessInfo.cpu_percent ProcessInfo.avg_cpu_percent
                               ProcessInfo.status].
  split; [done|]. split; [exact Havg|].
  unfold cpu_monitor_ui.row_status.
  cbn [ProcessInfo.avg_cpu_percent].
  fold (average_after (psutil.pid p) cpu c s).
  rewrite (Qgt_bool_proper _ _ _ Havg). done.
Qed.

Lemma X18_first_reading_status_agrees_with_table_witness :
  let s := __init__ 70 2 4%Z 0 in
  let r := _get_process_info (live_process 7 90) (at_time 1) s in
  exists (l : loc) (i : ProcessInfo.t),
    r.1 = Some l /\ objects r.2 !! l = Some i /\
    ProcessInfo.status i = cpu_monitor_ui.row_status i (threshold s).
Proof.
  intros s r.
  destruct (X18_first_reading_status_agrees_with_table s (live_process 7 90)
              (at_time 1) "worker" 90 1)
    as (l & i & Hl & Hi & _ & _ & Hs);
    [reflexivity | reflexivity | discriminate
    | reflexivity | reflexivity | reflexivity |].
  exists l, i. split; [exact Hl|]. split; [exact Hi | exact Hs].
Defined.

(** The attributes a full update leaves alone. *)
Lemma full_update_config (tick : Tick) (s : Core) :
  let s' := full_update tick s in
  system_data s' = system_data s /\
  history_window s' = history_window s /\
  cache_ttl s' = cache_ttl s /\
  update_interval s' = update_interval s.
Proof.
  unfold full_update.
  set (s0 := set_update_event false s).
  destruct (match process_iter tick with
            | Some it => _
            | None => _
            end) as [processes s1] eqn:E1.
  assert (H1 : control s1 = control s0).
  { destruct (process_iter tick); simplify_eq; [|done].
    change s1 with (processes, s1).2. rewrite <- E1. apply control_collect. }
  destruct (match processes with
            | [] => _
            | _ => _
            end) as [processes' s2] eqn:E2.
  assert (H2 : control s2 = control s1).
  { destruct processes; simplify_eq; [|done].
    destruct (pids tick); simplify_eq; [|done].
    change s2 with (processes', s2).2. rewrite <- E2. apply control_collect. }
  rewrite H1 in H2. unfold control in H2. simpl in *. simplify_eq.
  repeat split; congruence.
Qed.

Lemma monitor_loop_body_config (tick : Tick) (st : Core * Q) :
  let s' := (_monitor_loop_body tick st).1 in
  let s1 := _update_system_stats (stats tick) st.1 in
  system_data s' = system_data s1 /\
  history_window s' = history_window st.1 /\
  cache_ttl s' = cache_ttl st.1 /\
  running s' = running st.1.
Proof.
  destruct st as [s l]. cbn [fst].
  assert (Hsweep : let s3 := sweep tick s in
            system_data s3 = system_data (_update_system_stats (stats tick) s) /\
            history_window s3 = history_window s /\
            cache_ttl s3 = cache_ttl s /\ running s3 = running s).
  { unfold sweep.
    pose proof (control_cleanup_process_cache (cache_cleanup_time tick)
                  (_update_system_stats (stats tick) s)) as H.
    unfold control in H. simpl. simplify_eq.
    destruct (stats tick); simpl in *; repeat split; congruence. }
  destruct Hsweep as (H1 & H2 & H3 & H4).
  unfold _monitor_loop_body. fold (sweep tick s).
  destruct (_ || _); cbn [fst]; [|done].
  destruct (full_update_config tick (sweep tick s)) as (G1 & G2 & G3 & _).
  destruct (full_update_frame tick (sweep tick s)) as (_ & G4 & _).
  repeat split; congruence.
Qed.

Lemma constants_apply_event (e : Event) (st : Core * Q) :
  constants (apply_event e st).1 = constants st.1.
Proof.
  destruct e as [tick| |pid os win32|v|v|]; simpl; try done.
  - destruct (running st.1); [|done].
    destruct (monitor_loop_body_config tick st) as (H1 & H2 & H3 & _).
    destruct (history_monitor_loop_body tick st) as (_ & H4 & _).
    unfold constants. rewrite H1, H2, H3, H4, history_max_points_update.
    by destruct (stats tick).
  - unfold kill_process. by repeat case_match.
Qed.

(** X20.  In every state the engine reaches, the history window is 180
    seconds, the cache TTL is 5 seconds, the history capacity is 100 points,
    and the CPU count reported by [get_system_stats] is the one read at
    construction. *)
Theorem X20_constants_never_change
    (threshold interval : Q) (cpu_count : Z) (now : Q) (events : list Event) :
  let s := (run events (__init__ threshold interval cpu_count now, 0)).1 in
  history_window s = 180 /\ cache_ttl s = 5 /\
  history_max_points s = 100%nat /\
  sd_cpu_count (get_system_stats s) = cpu_count.
Proof.
  intros s.
  assert (H : forall st : Core * Q, constants (run events st).1 = constants st.1).
  { induction events as [|e events IH]; intros st; simpl; [done|].
    by rewrite IH, constants_apply_event. }
  specialize (H (__init__ threshold interval cpu_count now, 0)).
  fold s in H. unfold constants, get_system_stats in *. simpl in H.
  by simplify_eq.
Qed.

(** X19.  After any number of iterations of a running loop,
    [get_system_stats] returns the latest successful sample (CPU and memory
    percent, frequency or 0 when unknown, time and memory breakdown) with the
    CPU count unchanged; with no successful sample it returns the statistics
    the loop started with. *)
Theorem X19_stats_are_the_latest_sample (ticks : list Tick) (st : Core * Q) :
  running st.1 = true ->
  get_system_stats (_monitor_loop ticks st).1 =
  match last (points ticks) with
  | Some r => stats_of r (sd_cpu_count (system_data st.1))
  | None => system_data st.1
  end.
Proof.
  unfold get_system_stats.
  revert st. induction ticks as [|tick ticks IH]; intros st Hrun; simpl.
  - done.
  - rewrite Hrun.
    destruct (monitor_loop_body_config tick st) as (H1 & _ & _ & Hr).
    rewrite IH by congruence. rewrite H1. unfold points. csimpl.
    destruct (stats tick) as [r|]; simpl.
    + fold (points ticks). rewrite last_cons.
      by destruct (last (points ticks)).
    + done.
Qed.

Lemma X19_stats_are_the_latest_sample_witness :
  let st := (__init__ 70 2 4%Z 0, 0) in
  running st.1 = true /\
  sd_cpu_percent
    (get_system_stats (_monitor_loop [sample_tick 1; sample_tick 2] st).1) = 2.
Proof.
  intros st. split; [reflexivity|].
  rewrite (X19_stats_are_the_latest_sample [sample_tick 1; sample_tick 2] st)
    by reflexivity.
  reflexivity.
Defined.
